(** * Talentfinder: event results calculator and competition dashboard

    A shallow embedding of [talentfinder.py] and [talentfinderpro.py].
    Both scripts are short sequences of pandas calls over uploaded
    spreadsheets, framed by Streamlit widgets.  The embedding has three
    layers:

    - [pd]: the pandas operations the scripts call, over tables whose rows
      map column names to cells;
    - [st]: the Streamlit run: a store of table objects (so that in-place
      assignment to a column is visible to every holder of the object) and
      the list of elements rendered so far, threaded through a state and
      exception monad;
    - [talentfinder], [talentfinderpro]: the functions of the two scripts,
      line by line.

    Numbers are exact integers: a score is counted in the sheet's smallest
    unit (the editor's step is half a mark; points are whole numbers).
    pandas adds such values as float64, which is exact as long as the sums
    stay below 2^53 units; decimal values that are no multiple of a unit,
    and float rounding, are outside the model.  A statement that sums the
    same cells in the order of the code holds as it stands; a statement
    that compares sums taken in different groupings or orders carries the
    bound [spec.exact_sums].

    The order in which [sort_values] leaves rows with equal values is not
    fixed by pandas (its default sort is not stable).  The model sorts
    stably, which is what the default sort does on short tables.  No
    theorem states an order of ties; where a theorem names the sorted
    table itself, it is that table up to the order of rows with equal
    values.  The counterexample to C3 shows two tied rows, with an
    argument that holds for either order of the two.

    Row labels (the pandas index) are not modelled: every assignment in
    the scripts pairs a table with a series computed from that same table,
    so rows are matched by position. *)

From Stdlib Require Import ZArith.
From stdpp Require Import base option list gmap strings sorting.

Local Open Scope Z_scope.

(** ** pandas *)

Module pd.

(** A spreadsheet cell: blank ([NaN]), a number, or text. *)
Inductive cell :=
| NaN
| Num (x : Z)
| Str (s : string).

#[global] Instance cell_eq_dec : EqDecision cell.
Proof. solve_decision. Defined.

Definition Series := list cell.

(** A row maps the column names to its cells. *)
Abbreviation row := (gmap string cell).

Record DataFrame := {
  columns : list string;
  rows : list row
}.

(** The exceptions the modelled calls raise, with [str(e)]. *)
Inductive exn :=
| KeyError (key : string)
| TypeError (msg : string)
| ValueError (msg : string).

Inductive result (A : Type) :=
| Ok (a : A)
| Raise (e : exn).
Arguments Ok {A} a.
Arguments Raise {A} e.

#[global] Instance result_ret : MRet result := @Ok.
#[global] Instance result_bind : MBind result := λ A B f m,
  match m with
  | Ok a => f a
  | Raise e => Raise e
  end.

(** [r[c]] for a row of a table; a cell the row does not hold reads as blank. *)
Definition at_col (c : string) (r : row) : cell := default NaN (r !! c).

Definition isna (v : cell) : bool :=
  match v with NaN => true | _ => false end.

Definition is_text (v : cell) : bool :=
  match v with Str _ => true | _ => false end.

Definition is_number (v : cell) : bool :=
  match v with Num _ => true | _ => false end.

(** [df[c]] *)
Definition getitem (df : DataFrame) (c : string) : result Series :=
  if bool_decide (c ∈ columns df) then Ok (at_col c <$> rows df)
  else Raise (KeyError c).

(** [df[c] = s]: the column is replaced, or appended when it is new. *)
Definition setitem (df : DataFrame) (c : string) (s : Series) : result DataFrame :=
  if bool_decide (length s = length (rows df)) then
    Ok {| columns := if bool_decide (c ∈ columns df) then columns df
                     else columns df ++ [c];
          rows := zip_with (λ r v, <[c := v]> r) (rows df) s |}
  else Raise (ValueError "Length of values does not match length of index").

(** [df[c] = v] for a scalar [v]: the value fills the whole column. *)
Definition setitem_scalar (df : DataFrame) (c : string) (v : cell) : DataFrame :=
  {| columns := if bool_decide (c ∈ columns df) then columns df
                else columns df ++ [c];
     rows := (λ r, <[c := v]> r) <$> rows df |}.

(** [df[[c1, ..., cn]]]: the listed columns, in the listed order. *)
Definition getitems (df : DataFrame) (cs : list string) : result DataFrame :=
  match filter (λ c, c ∉ columns df) cs with
  | [] => Ok {| columns := cs;
                rows := (λ r, filter (λ kv, kv.1 ∈ cs) r) <$> rows df |}
  | c :: _ => Raise (KeyError c)
  end.

(** [s.fillna(v)] *)
Definition fillna (v : cell) (s : Series) : Series :=
  (λ x, if isna x then v else x) <$> s.

(** Python's [+] on two cells.  A blank operand gives a blank; text is
    concatenated with text and refuses a number.  Numbers are added
    exactly, as float64 adds whole units below 2^53 (see the head of the
    file). *)
Definition add_cell (a b : cell) : result cell :=
  match a, b with
  | NaN, _ | _, NaN => Ok NaN
  | Num x, Num y => Ok (Num (x + y))
  | Str s, Str t => Ok (Str (s +:+ t))
  | _, _ => Raise (TypeError "unsupported operand type(s) for +")
  end.

(** [s1 + s2], row by row. *)
Fixpoint add (s1 s2 : Series) : result Series :=
  match s1, s2 with
  | a :: s1', b :: s2' =>
      v ← add_cell a b; s ← add s1' s2'; Ok (v :: s)
  | _, _ => Ok []
  end.

(** The order of the values of one column: numbers by value, text by code
    point, and, where a column of group keys mixes them, numbers first. *)
Definition cell_lt (a b : cell) : bool :=
  match a, b with
  | Num x, Num y => bool_decide (x < y)
  | Str s, Str t => bool_decide (String.le s t ∧ s ≠ t)
  | Num _, Str _ => true
  | _, _ => false
  end.

(** Sorting and ranking compare the values of a column with [<]; Python
    refuses to compare a number with text. *)
Definition comparable (s : Series) : bool :=
  negb (existsb is_number s && existsb is_text s).

Section stable_sort.
Context {A : Type} (before : A → A → bool).

(** [x] goes in front of the first element that is not strictly before it,
    so an element that stood earlier stays earlier among equals. *)
Fixpoint insert_by (x : A) (l : list A) : list A :=
  match l with
  | [] => [x]
  | y :: l' => if before y x then y :: insert_by x l' else x :: y :: l'
  end.

Definition sort_by (l : list A) : list A := foldr insert_by [] l.
End stable_sort.

(** [df.sort_values(by=c, ascending=asc)]: a new table with the rows in the
    order of column [c], blanks last.  pandas sorts with numpy's default
    sort, which leaves rows with equal values in an order of its own: on
    short columns, where it is an insertion sort, in the order they had,
    on longer ones in no order one can rely on.  The model is the stable
    sort throughout; it is the sort of the code up to the order of equal
    values, and the theorems on the scripts state nothing about that
    order. *)
Definition sort_values (df : DataFrame) (by_ : string) (ascending : bool)
  : result DataFrame :=
  k ← getitem df by_;
  if comparable k then
    let before (r1 r2 : row) :=
      if ascending then cell_lt (at_col by_ r1) (at_col by_ r2)
      else cell_lt (at_col by_ r2) (at_col by_ r1) in
    let present := filter (λ r, ¬ isna (at_col by_ r)) (rows df) in
    let blank := filter (λ r, isna (at_col by_ r)) (rows df) in
    Ok {| columns := columns df; rows := sort_by before present ++ blank |}
  else Raise (TypeError "'<' not supported between instances of 'str' and 'float'").

(** [s.rank(method='min', ascending=False)]: one plus the number of values
    of the series that are strictly greater; a blank stays blank. *)
Definition rank_min_descending (s : Series) : result Series :=
  if comparable s then
    Ok ((λ v, if isna v then NaN
              else Num (1 + Z.of_nat (length (filter (λ w, cell_lt v w) s)))) <$> s)
  else Raise (TypeError "'<' not supported between instances of 'str' and 'float'").

(** [df.values]: the cells of the table, row by row in column order. *)
Definition values (df : DataFrame) : list (list cell) :=
  (λ r, (λ c, at_col c r) <$> columns df) <$> rows df.

(** [df.head(n)] *)
Definition head (df : DataFrame) (n : nat) : DataFrame :=
  {| columns := columns df; rows := take n (rows df) |}.

(** *** [pd.merge(left, right, on=key, how='right')] *)

(** A column shared by both tables, the key apart, is kept twice, under
    the suffixes [_x] and [_y]. *)
Definition with_suffix (overlap : list string) (sfx c : string) : string :=
  if bool_decide (c ∈ overlap) then c +:+ sfx else c.

(** pandas refuses to match a text key column with a numeric one. *)
Definition key_kinds_differ (lk rk : Series) : bool :=
  let text_only k := existsb is_text k && negb (existsb is_number k) in
  let no_text k := negb (existsb is_text k) in
  bool_decide (lk ≠ []) && bool_decide (rk ≠ []) &&
  (text_only lk && no_text rk || no_text lk && text_only rk).

(** One row of the result: the key and the cells of the right row, and the
    cells of the matching left row, or blanks when there is none. *)
Definition merged_row (left right : DataFrame) (key : string)
    (overlap : list string) (lr : option row) (rr : row) : row :=
  list_to_map
    (((λ c, (with_suffix overlap "_x" c,
             if bool_decide (c = key) then at_col key rr
             else from_option (at_col c) NaN lr)) <$> columns left) ++
     ((λ c, (with_suffix overlap "_y" c, at_col c rr)) <$>
        filter (λ c, c ≠ key) (columns right))).

(** The rows come in the order of the right table; a right row with
    several matches is repeated, once for each matching left row in the
    order of the left table; a right row without a match is kept once.
    Blank keys match each other, as they do in pandas. *)
Definition merge_right (left right : DataFrame) (key : string) : result DataFrame :=
  lk ← getitem left key;
  rk ← getitem right key;
  if key_kinds_differ lk rk then
    Raise (ValueError "You are trying to merge on object and float64 columns")
  else
    let overlap :=
      filter (λ c, c ≠ key ∧ c ∈ columns right) (columns left) in
    let cols :=
      (with_suffix overlap "_x" <$> columns left) ++
      (with_suffix overlap "_y" <$> filter (λ c, c ≠ key) (columns right)) in
    if bool_decide (NoDup cols) then
      Ok {| columns := cols;
            rows := rr ← rows right;
              match filter (λ lr, at_col key lr = at_col key rr) (rows left) with
              | [] => [merged_row left right key overlap None rr]
              | ms => (λ lr, merged_row left right key overlap (Some lr) rr) <$> ms
              end |}
    else Raise (ValueError "Passing 'suffixes' which cause duplicate columns is not allowed").

(** *** [df.groupby(keys)[col].sum().reset_index()] *)

(** The key of a row: its cells in the grouping columns. *)
Definition key_of (keys : list string) (r : row) : list cell :=
  (λ c, at_col c r) <$> keys.

(** Keys are ordered column by column. *)
Fixpoint key_lt (k1 k2 : list cell) : bool :=
  match k1, k2 with
  | a :: k1', b :: k2' => cell_lt a b || bool_decide (a = b) && key_lt k1' k2'
  | _, _ => false
  end.

(** The groups: the distinct keys of the rows, in ascending order.  A row
    with a blank in a grouping column belongs to no group. *)
Definition group_keys (df : DataFrame) (keys : list string) : list (list cell) :=
  sort_by key_lt
    (remove_dups
       (filter (λ k, ¬ existsb isna k) (key_of keys <$> rows df))).

Fixpoint add_all (acc : cell) (vs : list cell) : result cell :=
  match vs with
  | [] => Ok acc
  | v :: vs' => acc' ← add_cell acc v; add_all acc' vs'
  end.

(** The sum of a group skips blanks, and is 0 when nothing is left. *)
Definition sum_cells (s : Series) : result cell :=
  match filter (λ v, ¬ isna v) s with
  | [] => Ok (Num 0)
  | v :: vs => add_all v vs
  end.

Definition group_sum (df : DataFrame) (keys : list string) (col : string)
    (k : list cell) : result cell :=
  sum_cells (at_col col <$> filter (λ r, key_of keys r = k) (rows df)).

(** One row for each group, holding the key and the sum of [col] over the
    rows of the group.  The keys are the names of columns: this is the
    call with one key given as a string, and the call with a list of keys
    unless pandas reads the list as row labels ([groupby_list_sum]). *)
Definition groupby_sum (df : DataFrame) (keys : list string) (col : string)
  : result DataFrame :=
  match filter (λ c, c ∉ columns df) keys with
  | c :: _ => Raise (KeyError c)
  | [] =>
      if bool_decide (col ∈ columns df) then
        sums ← mapM (λ k, v ← group_sum df keys col k;
                          Ok (list_to_map (zip keys k ++ [(col, v)]) : row))
                    (group_keys df keys);
        if bool_decide (col ∈ keys) then
          Raise (ValueError ("cannot insert " +:+ col +:+ ", already exists"))
        else Ok {| columns := keys ++ [col]; rows := sums |}
      else Raise (KeyError ("Column not found: " +:+ col))
  end.

(** [df.groupby(labels)[col].sum().reset_index()] where [labels] is an
    array with one label for each row: the rows are grouped by their
    labels, the groups come in ascending order of the labels, and the
    labels come back in a column named 'index', the name [reset_index]
    gives an unnamed index ('level_0' when 'index' is taken). *)
Definition groupby_labels_sum (df : DataFrame) (labels : list string) (col : string)
  : result DataFrame :=
  if bool_decide (col ∈ columns df) then
    let index := if bool_decide (col = "index") then "level_0" else "index" in
    sums ← mapM (λ l, v ← sum_cells
                            (at_col col <$>
                               (snd <$> filter (λ lr, Str lr.1 = l) (zip labels (rows df))));
                      Ok (list_to_map [(index, l); (col, v)] : row))
                (sort_by cell_lt (remove_dups (Str <$> labels)));
    Ok {| columns := [index; col]; rows := sums |}
  else Raise (KeyError ("Column not found: " +:+ col)).

(** [df.groupby(keys)[col].sum().reset_index()] with a list of keys.  A
    list that is as long as the table has rows, and that names something
    other than a column, is not read as a list of columns: pandas takes it
    as one array of row labels. *)
Definition groupby_list_sum (df : DataFrame) (keys : list string) (col : string)
  : result DataFrame :=
  if bool_decide (length keys = length (rows df) ∧ ¬ Forall (λ c, c ∈ columns df) keys)
  then groupby_labels_sum df keys col
  else groupby_sum df keys col.

End pd.

(** ** Streamlit *)

Module st.
Import pd.

(** A table object of the running script, named by its place in the store.
    Two variables holding the same [ref] see each other's assignments. *)
Definition ref := nat.

(** What one run of the script has put on the page. *)
Inductive element :=
| title (body : string)
| subheader (body : string)
| write (body : string)
| dataframe (data : DataFrame)
| error (body : string)
| download_button (label : string) (data : DataFrame) (file_name mime : string).

(** What the user has entered before the run: the text fields and uploaded
    workbooks by widget label (a workbook is given by what [pd.read_excel]
    makes of it), the edits made in the table editor, and the button whose
    press started this run, if any. *)
Record session := {
  text_inputs : gmap string string;
  uploads : gmap string (result DataFrame);
  edits : DataFrame → DataFrame;
  pressed : option string
}.

Record state := {
  objects : list DataFrame;
  page : list element
}.

(** Computations of a run: they read the session, change the state and
    return or raise.  The state survives an exception. *)
Definition M (A : Type) : Type := session → state → result A * state.

#[global] Instance M_ret : MRet M := λ A a _ σ, (Ok a, σ).
#[global] Instance M_bind : MBind M := λ A B f m u σ,
  match m u σ with
  | (Ok a, σ') => f a u σ'
  | (Raise e, σ') => (Raise e, σ')
  end.

Definition lift {A} (r : result A) : M A := λ _ σ, (r, σ).

(** [try: body except Exception as e: handler(e)] *)
Definition try_except {A} (body : M A) (handler : exn → M A) : M A := λ u σ,
  match body u σ with
  | (Ok a, σ') => (Ok a, σ')
  | (Raise e, σ') => handler e u σ'
  end.

Definition str (e : exn) : string :=
  match e with
  | KeyError key => "'" +:+ key +:+ "'"
  | TypeError msg => msg
  | ValueError msg => msg
  end.

(** *** The store *)

Definition new (df : DataFrame) : M ref := λ _ σ,
  (Ok (length (objects σ)),
   {| objects := objects σ ++ [df]; page := page σ |}).

Definition load (l : ref) : M DataFrame := λ _ σ,
  match objects σ !! l with
  | Some df => (Ok df, σ)
  | None => (Raise (ValueError "no such object"), σ)
  end.

Definition store (l : ref) (df : DataFrame) : M unit := λ _ σ,
  (Ok (), {| objects := <[l := df]> (objects σ); page := page σ |}).

(** *** pandas calls on table objects *)

Definition read_excel (file : result DataFrame) : M ref :=
  df ← lift file; new df.

Definition getitem (l : ref) (c : string) : M Series :=
  df ← load l; lift (pd.getitem df c).

(** Assignment to a column changes the object itself. *)
Definition setitem (l : ref) (c : string) (s : Series) : M unit :=
  df ← load l; df' ← lift (pd.setitem df c s); store l df'.

Definition setitem_scalar (l : ref) (c : string) (v : cell) : M unit :=
  df ← load l; store l (pd.setitem_scalar df c v).

Definition columns (l : ref) : M (list string) :=
  df ← load l; mret (pd.columns df).

(** The calls below leave their argument alone and return a new object. *)
Definition sort_values (l : ref) (by_ : string) (ascending : bool) : M ref :=
  df ← load l; df' ← lift (pd.sort_values df by_ ascending); new df'.

Definition getitems (l : ref) (cs : list string) : M ref :=
  df ← load l; df' ← lift (pd.getitems df cs); new df'.

(** *** Widgets *)

Definition render (e : element) : M unit := λ _ σ,
  (Ok (), {| objects := objects σ; page := page σ ++ [e] |}).

Definition text_input (label value : string) : M string := λ u σ,
  (Ok (default value (text_inputs u !! label)), σ).

Definition file_uploader (label : string) : M (option (result DataFrame)) := λ u σ,
  (Ok (uploads u !! label), σ).

(** [st.data_editor(df, ...)] returns an edited copy of the table. *)
Definition data_editor (l : ref) : M ref := λ u σ,
  (df ← load l; new (edits u df)) u σ.

(** A button is true in the run its press started, and in no other. *)
Definition button (label : string) : M bool := λ u σ,
  (Ok (bool_decide (pressed u = Some label)), σ).

End st.

(** ** talentfinder.py *)

Module talentfinder.
Import pd.

Definition calculate_total_and_rank (df : st.ref) : st.M st.ref :=
  (* df['total marks'] = df['mark1'].fillna(0) + df['mark2'].fillna(0) + df['mark3'].fillna(0) *)
  mark1 ← st.getitem df "mark1";
  mark2 ← st.getitem df "mark2";
  sum12 ← st.lift (add (fillna (Num 0) mark1) (fillna (Num 0) mark2));
  mark3 ← st.getitem df "mark3";
  total ← st.lift (add sum12 (fillna (Num 0) mark3));
  st.setitem df "total marks" total;;
  (* df = df.sort_values(by='total marks', ascending=False) *)
  df ← st.sort_values df "total marks" false;
  (* df['Rank'] = df['total marks'].rank(method='min', ascending=False) *)
  total ← st.getitem df "total marks";
  rank ← st.lift (rank_min_descending total);
  st.setitem df "Rank" rank;;
  mret df.

Definition merge_with_master_data (marks_df master_df : st.ref)
  : st.M (option st.ref) :=
  marks_columns ← st.columns marks_df;
  master_columns ← st.columns master_df;
  if bool_decide ("Chest No" ∈ marks_columns)
     && bool_decide ("Chest No" ∈ master_columns) then
    scores ← st.getitems marks_df
               ["Chest No"; "mark1"; "mark2"; "mark3"; "total marks"; "Rank"];
    master ← st.load master_df;
    scores ← st.load scores;
    merged ← st.lift (merge_right master scores "Chest No");
    merged_df ← st.new merged;
    merged_df ← st.sort_values merged_df "total marks" false;
    mret (Some merged_df)
  else
    st.render (st.error "Chest No column not found in one or both files");;
    mret None.

Definition required_columns : list string :=
  ["Chest No"; "mark1"; "mark2"; "mark3"; "total marks"; "Rank"].

(** [for col in missing_columns: marks_df[col] = np.nan] *)
Fixpoint add_missing_columns (marks_df : st.ref) (missing : list string)
  : st.M unit :=
  match missing with
  | [] => mret ()
  | col :: missing' =>
      st.setitem_scalar marks_df col NaN;;
      add_missing_columns marks_df missing'
  end.

(** The body of the [if st.button("Download Result"):] block.  Each
    [return] of the source ends the branch it stands in. *)
Definition download_result (event_name : string)
    (master_file : option (result DataFrame)) (edited_df : st.ref)
  : st.M unit :=
  if bool_decide (event_name = "") then
    st.render (st.error "Please enter an event name before downloading")
  else
    result_df ← calculate_total_and_rank edited_df;
    final_df ← match master_file with
                | Some file =>
                    master_df ← st.read_excel file;
                    st.render (st.write "Preview of Master Data:");;
                    master ← st.load master_df;
                    st.render (st.dataframe (head master 5));;
                    merge_with_master_data result_df master_df
                | None => mret (Some result_df)
                end;
    match final_df with
    | None => mret ()
    | Some final_df =>
        final ← st.load final_df;
        st.render (st.download_button "Click to Download" final
                     (event_name +:+ "_results.xlsx")
                     "application/vnd.openxmlformats-officedocument.spreadsheetml.sheet")
    end.

Definition main : st.M unit :=
  st.render (st.title "Event Results Calculator");;
  event_name ← st.text_input "Enter Event Name" "";
  st.render (st.subheader "Upload Marks Entry File");;
  marks_file ← st.file_uploader "Upload Excel file with Chest Numbers";
  st.render (st.subheader "Upload Master Data");;
  master_file ← st.file_uploader "Upload Excel file with participant details";
  match marks_file with
  | None => mret ()
  | Some marks_file =>
      st.try_except
        (marks_df ← st.read_excel marks_file;
         cols ← st.columns marks_df;
         let missing_columns := filter (λ col, col ∉ cols) required_columns in
         add_missing_columns marks_df missing_columns;;
         st.render (st.write "Enter marks in the table below:");;
         edited_df ← st.data_editor marks_df;
         calculate ← st.button "Calculate Result";
         (if calculate : bool then
            result_df ← calculate_total_and_rank edited_df;
            st.render (st.write "Results calculated! Updated data:");;
            result ← st.load result_df;
            st.render (st.dataframe result)
          else mret ());;
         download ← st.button "Download Result";
         if download : bool then download_result event_name master_file edited_df
         else mret ())
        (λ e,
           st.render (st.error ("An error occurred: " +:+ st.str e));;
           st.render (st.error "Please make sure your Excel files have the correct format"))
  end.

End talentfinder.

(** ** talentfinderpro.py *)

Module talentfinderpro.
Import pd.

(** The function changes no table and renders nothing, so it is a function
    of the table's value.  [None] is Python's [None].  The 'Student'
    branch passes a list of keys, the other branches one key as a string. *)
Definition get_top_performers (df : DataFrame) (category : string) (n : nat)
  : result (option DataFrame) :=
  if bool_decide (category = "Student") then
    sums ← groupby_list_sum df
              ["ID No"; "Student Name"; "Church"; "Section"; "Region"] "Points";
    sorted ← sort_values sums "Points" false;
    Ok (Some (head sorted n))
  else if bool_decide (category = "Church") then
    sums ← groupby_sum df ["Church"] "Points";
    sorted ← sort_values sums "Points" false;
    Ok (Some (head sorted n))
  else if bool_decide (category = "Section") then
    sums ← groupby_sum df ["Section"] "Points";
    sorted ← sort_values sums "Points" false;
    Ok (Some (head sorted n))
  else if bool_decide (category = "Region") then
    sums ← groupby_sum df ["Region"] "Points";
    sorted ← sort_values sums "Points" false;
    Ok (Some (head sorted n))
  else Ok None.

End talentfinderpro.

(** ** Vocabulary of the statements *)

Module spec.
Import pd.

(** A score with a blank counted as 0. *)
Definition score (c : string) (r : row) : Z :=
  match at_col c r with Num x => x | _ => 0 end.

(** Column [c] holds numbers and blanks only. *)
Definition numeric (c : string) (df : DataFrame) : Prop :=
  Forall (λ r, ¬ is_text (at_col c r)) (rows df).

(** A marks table has the three score columns, with numbers or blanks. *)
Definition marks_table (df : DataFrame) : Prop :=
  Forall (λ c, c ∈ columns df ∧ numeric c df) ["mark1"; "mark2"; "mark3"].

#[global] Instance marks_table_dec df : Decision (marks_table df).
Proof. unfold marks_table, numeric. apply _. Defined.

Definition total (r : row) : Z :=
  score "mark1" r + score "mark2" r + score "mark3" r.

Definition with_total (r : row) : row := <["total marks" := Num (total r)]> r.

(** Competition ranking of a row among the rows [l]: one plus the number
    of rows of [l] whose total is strictly greater. *)
Definition competition_rank (l : list row) (r : row) : Z :=
  1 + Z.of_nat (length (filter (λ r', score "total marks" r < score "total marks" r') l)).

Definition add_column (c : string) (cs : list string) : list string :=
  if bool_decide (c ∈ cs) then cs else cs ++ [c].

(** The uploaded marks table as [main] shows it in the editor: with a blank
    column for every required column it lacks. *)
Definition with_required_columns (marks : DataFrame) : DataFrame :=
  foldl (λ df col, setitem_scalar df col NaN) marks
    (filter (λ col, col ∉ columns marks) talentfinder.required_columns).

(** The columns [merge_with_master_data] takes from the marks table. *)
Definition score_columns : list string :=
  ["mark1"; "mark2"; "mark3"; "total marks"; "Rank"].

Definition result_columns : list string := "Chest No" :: score_columns.

(** A marks table with its results and a roster that can be merged: the
    marks table has the six result columns; the roster has the chest
    numbers and none of the score columns, each column once; the chest
    numbers are of one kind in both; and the totals can be compared (as
    they can after [calculate_total_and_rank]). *)
Definition mergeable (marks master : DataFrame) : Prop :=
  Forall (λ c, c ∈ columns marks) result_columns ∧
  "Chest No" ∈ columns master ∧
  NoDup (columns master) ∧
  Forall (λ c, c ∉ columns master) score_columns ∧
  key_kinds_differ (at_col "Chest No" <$> rows master)
                   (at_col "Chest No" <$> rows marks) = false ∧
  comparable (at_col "total marks" <$> rows marks) = true.

#[global] Instance mergeable_dec marks master : Decision (mergeable marks master).
Proof. unfold mergeable. apply _. Defined.


(** The table of the six result columns that the call passes to the join. *)
Definition results_of (marks : DataFrame) : DataFrame :=
  {| columns := result_columns;
     rows := (λ r : row, filter (λ kv, kv.1 ∈ result_columns) r) <$> rows marks |}.

(** The join of the roster with these results, before it is sorted. *)
Definition joined (marks master : DataFrame) : list row :=
  rr ← rows (results_of marks);
  match filter (λ lr, at_col "Chest No" lr = at_col "Chest No" rr) (rows master) with
  | [] => [merged_row master (results_of marks) "Chest No" [] None rr]
  | ms => (λ lr, merged_row master (results_of marks) "Chest No" [] (Some lr) rr) <$> ms
  end.

(** The joined table: the columns of the roster, then the five score
    columns. *)
Definition joined_table (marks master : DataFrame) : DataFrame :=
  {| columns := columns master ++ score_columns; rows := joined marks master |}.

(** The sum of column [c] over the rows [l], a blank counted as 0. *)
Definition column_sum (c : string) (l : list row) : Z :=
  foldr (λ r s, score c r + s) 0 l.

(** The values of column [c] are small enough for float64 to add them
    exactly in any order and grouping: their absolute values sum to less
    than 2^53. *)
Definition exact_sums (c : string) (l : list row) : Prop :=
  foldr (λ r s, Z.abs (score c r) + s) 0 l < 2 ^ 53.

#[global] Instance exact_sums_dec c l : Decision (exact_sums c l).
Proof. unfold exact_sums. apply _. Defined.

(** The rows of the group with key [k]. *)
Definition group (df : DataFrame) (keys : list string) (k : list cell) : list row :=
  filter (λ r, key_of keys r = k) (rows df).

(** The row of the grouped table for key [k] and sum [v]. *)
Definition group_row (keys : list string) (col : string) (k : list cell) (v : cell) : row :=
  list_to_map (zip keys k ++ [(col, v)]).

(** The grouping columns of the categories of the dashboard. *)
Definition grouping (category : string) : option (list string) :=
  if bool_decide (category = "Student") then
    Some ["ID No"; "Student Name"; "Church"; "Section"; "Region"]
  else if bool_decide (category ∈ ["Church"; "Section"; "Region"]) then
    Some [category]
  else None.

Definition student_columns : list string :=
  ["ID No"; "Student Name"; "Church"; "Section"; "Region"].

(** The descriptive columns are constant within each participant's rows:
    rows with the same 'ID No' agree on the name and the affiliations. *)
Definition constant_per_student (df : DataFrame) : Prop :=
  ∀ r1 r2, r1 ∈ rows df → r2 ∈ rows df →
    at_col "ID No" r1 = at_col "ID No" r2 →
    key_of student_columns r1 = key_of student_columns r2.

#[global] Instance constant_per_student_dec df : Decision (constant_per_student df).
Proof.
  destruct (decide (Forall (λ r1, Forall (λ r2,
              at_col "ID No" r1 = at_col "ID No" r2 →
              key_of student_columns r1 = key_of student_columns r2)
            (rows df)) (rows df))) as [Hyes|Hno]; [left|right].
  - intros r1 r2 H1 H2. rewrite Forall_forall in Hyes.
    pose proof (Hyes r1 H1) as Hr1. rewrite Forall_forall in Hr1. by apply Hr1.
  - intros Hconst. apply Hno. rewrite Forall_forall. intros r1 H1.
    rewrite Forall_forall. intros r2 H2. by apply Hconst.
Defined.



(** A table of points that can be grouped by [keys]: it has these columns
    and a 'Points' column of numbers and blanks. *)
Definition points_table (df : DataFrame) (keys : list string) : Prop :=
  Forall (λ c, c ∈ columns df) keys ∧ "Points" ∈ columns df ∧ numeric "Points" df.

#[global] Instance points_table_dec df keys : Decision (points_table df keys).
Proof. unfold points_table, numeric. apply _. Defined.

(** The table a call returns, read from the store it leaves. *)
Definition returned_table (run : result (option st.ref) * st.state) : option DataFrame :=
  match run with
  | (Ok (Some l), σ') => st.objects σ' !! l
  | _ => None
  end.

(** The order of a descending sort by column [c]. *)
Definition descending (c : string) (r1 r2 : row) : bool :=
  cell_lt (at_col c r2) (at_col c r1).

(** The argument of [calculate_total_and_rank] after the call: the same
    rows in the same order, each with its total. *)
Definition totalled (df : DataFrame) : DataFrame :=
  {| columns := add_column "total marks" (columns df);
     rows := with_total <$> rows df |}.

(** The table [calculate_total_and_rank] returns. *)
Definition ranked (df : DataFrame) : DataFrame :=
  let sorted := sort_by (descending "total marks") (rows (totalled df)) in
  {| columns := add_column "Rank" (columns (totalled df));
     rows := (λ r, <["Rank" := Num (competition_rank sorted r)]> r) <$> sorted |}.

(** *** The runs of [main] *)

(** What the user has entered in the widgets of [main]. *)
Definition event_name (u : st.session) : string :=
  default "" (st.text_inputs u !! "Enter Event Name").

Definition marks_upload (u : st.session) : option (result DataFrame) :=
  st.uploads u !! "Upload Excel file with Chest Numbers".

Definition master_upload (u : st.session) : option (result DataFrame) :=
  st.uploads u !! "Upload Excel file with participant details".

(** The table the editor returns for the uploaded marks table. *)
Definition edited (u : st.session) (marks : DataFrame) : DataFrame :=
  st.edits u (with_required_columns marks).

(** The state of a run of [main] when the editor has returned: the
    uploaded table with its required columns and the edited copy are the
    two new objects, and the page shows the headings. *)
Definition at_editor (u : st.session) (σ : st.state) (marks : DataFrame) : st.state :=
  {| st.objects := st.objects σ ++ [with_required_columns marks; edited u marks];
     st.page := st.page σ
       ++ [st.title "Event Results Calculator";
           st.subheader "Upload Marks Entry File";
           st.subheader "Upload Master Data";
           st.write "Enter marks in the table below:"] |}.

Definition xlsx : string :=
  "application/vnd.openxmlformats-officedocument.spreadsheetml.sheet".

End spec.

Module Examples.
Import pd.

Definition marks_row (chest : Z) (m1 m2 m3 : cell) : row :=
  {[ "Chest No" := Num chest; "mark1" := m1; "mark2" := m2; "mark3" := m3 ]}.

(** The two participants of the specification's example. *)
Definition two_rows : DataFrame :=
  {| columns := ["Chest No"; "mark1"; "mark2"; "mark3"];
     rows := [marks_row 101 (Num 60) (Num 70) (Num 80);
              marks_row 102 (Num 90) (Num 0) (Num 0)] |}.

Definition no_input : st.session :=
  {| st.text_inputs := ∅; st.uploads := ∅; st.edits := id; st.pressed := None |}.

(** A run that holds the example table as its only object. *)
Definition start : st.state := {| st.objects := [two_rows]; st.page := [] |}.

(** The example table with its totals and ranks. *)
Definition results : DataFrame := spec.ranked two_rows.

(** A roster that knows participant 101 but not 102, and a participant 999
    who has no marks. *)
Definition roster : DataFrame :=
  {| columns := ["Chest No"; "Name"];
     rows := [{[ "Chest No" := Num 101; "Name" := Str "Ann" ]};
              {[ "Chest No" := Num 999; "Name" := Str "Zed" ]}] |}.

(** A roster without the chest numbers. *)
Definition names_only : DataFrame :=
  {| columns := ["Name"];
     rows := [{[ "Name" := Str "Ann" ]}; {[ "Name" := Str "Ben" ]}] |}.

(** The marks workbook is uploaded, the event name is left empty, and the
    user presses Download Result. *)
Definition download_without_name : st.session :=
  {| st.text_inputs := ∅;
     st.uploads := {[ "Upload Excel file with Chest Numbers" := Ok two_rows ]};
     st.edits := id;
     st.pressed := Some "Download Result" |}.

Definition blank_page : st.state := {| st.objects := []; st.page := [] |}.

Definition points_row (id : Z) (name church section region : string) (points : cell)
  : row :=
  {[ "ID No" := Num id; "Student Name" := Str name; "Church" := Str church;
     "Section" := Str section; "Region" := Str region; "Points" := points ]}.

(** Two churches with 5 points each; Bethel comes first in the table. *)
Definition tied_churches : DataFrame :=
  {| columns := ["ID No"; "Student Name"; "Church"; "Section"; "Region"; "Points"];
     rows := [points_row 1 "Bea" "Bethel" "Junior" "North" (Num 5);
              points_row 2 "Al" "Antioch" "Senior" "South" (Num 3);
              points_row 2 "Al" "Antioch" "Senior" "South" (Num 2)] |}.



(** A marks table without the second score. *)
Definition without_mark2 : DataFrame :=
  {| columns := ["Chest No"; "mark1"; "mark3"];
     rows := [{[ "Chest No" := Num 101; "mark1" := Num 60; "mark3" := Num 80 ]}] |}.


(** The marks workbook is uploaded and Calculate Result is pressed. *)
Definition calculate_pressed : st.session :=
  {| st.text_inputs := ∅;
     st.uploads := {[ "Upload Excel file with Chest Numbers" := Ok two_rows ]};
     st.edits := id;
     st.pressed := Some "Calculate Result" |}.

(** Download Result is pressed for the event "Finals", with the given
    workbooks uploaded. *)
Definition download_pressed (uploads : gmap string (result DataFrame)) : st.session :=
  {| st.text_inputs := {[ "Enter Event Name" := "Finals" ]};
     st.uploads := uploads;
     st.edits := id;
     st.pressed := Some "Download Result" |}.

Definition marks_only : gmap string (result DataFrame) :=
  {[ "Upload Excel file with Chest Numbers" := Ok two_rows ]}.

Definition marks_and (master : result DataFrame) : gmap string (result DataFrame) :=
  {[ "Upload Excel file with Chest Numbers" := Ok two_rows;
     "Upload Excel file with participant details" := master ]}.

(** The marks workbook cannot be read. *)
Definition unreadable_marks : st.session :=
  {| st.text_inputs := ∅;
     st.uploads := {[ "Upload Excel file with Chest Numbers" :=
                        Raise (ValueError "Excel file format cannot be determined") ]};
     st.edits := id;
     st.pressed := None |}.

(** A run that holds the example results and a roster. *)
Definition merging (master : DataFrame) : st.state :=
  {| st.objects := [results; master]; st.page := [] |}.

(** A table of churches without the points. *)
Definition no_points : DataFrame :=
  {| columns := ["Church"];
     rows := [{[ "Church" := Str "Bethel" ]}; {[ "Church" := Str "Antioch" ]}] |}.

(** Five participants in a table that lacks the 'Region' column. *)
Definition five_without_region : DataFrame :=
  {| columns := ["ID No"; "Student Name"; "Church"; "Section"; "Points"];
     rows := (λ i, {[ "ID No" := Num i; "Student Name" := Str "Al";
                      "Church" := Str "Bethel"; "Section" := Str "Junior";
                      "Points" := Num (10 * i) ]}) <$> [1; 2; 3; 4; 5] |}.

(** The rows of [tied_churches] from the last to the first. *)
Definition tied_churches_reversed : DataFrame :=
  {| columns := columns tied_churches; rows := reverse (rows tied_churches) |}.

End Examples.

(** * Properties *)

Import pd.

Section pandas_facts.

Lemma getitem_ok df c :
c ∈ columns df → getitem df c = Ok (at_col c <$> rows df).
Proof. intros Hc. unfold getitem. by rewrite bool_decide_true. Qed.

Lemma fillna_score c (l : list row) :
Forall (λ r, ¬ is_text (at_col c r)) l →
fillna (Num 0) (at_col c <$> l) = (λ r, Num (spec.score c r)) <$> l.
Proof.
unfold fillna. rewrite <- list_fmap_compose.
intros H. apply Forall_fmap_ext_1. eapply Forall_impl; [exact H|].
intros r. unfold spec.score, compose.
destruct (at_col c r); simpl; [done..|]. by intros [].
Qed.

Lemma add_numbers (f g : row → Z) (l : list row) :
add ((λ r, Num (f r)) <$> l) ((λ r, Num (g r)) <$> l)
= Ok ((λ r, Num (f r + g r)) <$> l).
Proof.
induction l as [|r l IH]; [done|].
rewrite !fmap_cons. cbn [add]. by rewrite IH.
Qed.

Lemma zip_with_insert_fmap c (f : row → cell) (l : list row) :
zip_with (λ r v, <[c := v]> r) l (f <$> l) = (λ r, <[c := f r]> r) <$> l.
Proof.
induction l as [|r l IH]; [done|].
rewrite !fmap_cons. cbn [zip_with]. by rewrite IH.
Qed.

Lemma setitem_fmap df c (f : row → cell) :
setitem df c (f <$> rows df)
= Ok {| columns := spec.add_column c (columns df);
        rows := (λ r, <[c := f r]> r) <$> rows df |}.
Proof.
unfold setitem. rewrite length_fmap, bool_decide_true by done.
by rewrite zip_with_insert_fmap.
Qed.

End pandas_facts.

(** *** The stable sort *)

Section stable_sort_facts.
Context {A : Type} (before : A → A → bool).

Lemma insert_by_Permutation x l : insert_by before x l ≡ₚ x :: l.
Proof.
  induction l as [|y l IH]; simpl; [done|].
  destruct (before y x); [|done].
  rewrite IH. apply Permutation_swap.
Qed.

Lemma sort_by_Permutation l : sort_by before l ≡ₚ l.
Proof.
  induction l as [|x l IH]; simpl; [done|].
  by rewrite insert_by_Permutation, IH.
Qed.

Lemma sort_by_length l : length (sort_by before l) = length l.
Proof. by rewrite sort_by_Permutation. Qed.

Lemma elem_of_sort_by x l : x ∈ sort_by before l ↔ x ∈ l.
Proof. by rewrite sort_by_Permutation. Qed.

(** The sorted list is ordered: no element is strictly before one that
    stands in front of it.  It is enough that [before] is a strict weak
    order on the elements that occur. *)
Section sorted.
Context (P : A → Prop).
Context (asym : ∀ x y, P x → P y → before x y → ¬ before y x).
Context (trans : ∀ x y z, P x → P y → P z →
                   ¬ before y x → ¬ before z y → ¬ before z x).

Lemma insert_by_sorted x l :
  P x → Forall P l →
  StronglySorted (λ a b, ¬ before b a) l →
  StronglySorted (λ a b, ¬ before b a) (insert_by before x l).
Proof.
  intros Hx. induction l as [|y l IH]; simpl; intros HP Hs.
  { repeat constructor. }
  apply Forall_cons in HP as [Hy HP].
  apply StronglySorted_inv in Hs as [Hs Hy_le].
  destruct (before y x) eqn:Hyx.
  - constructor; [by apply IH|].
    rewrite insert_by_Permutation. constructor; [|done].
    apply asym; [done..|]. by apply Is_true_true_2.
  - constructor; [by constructor|].
    assert (¬ before y x) as Hxy by by apply Is_true_false_2.
    constructor; [done|].
    rewrite Forall_forall in Hy_le, HP |- *. intros z Hz.
    apply (trans x y z); [done|done|by apply HP|done|by apply Hy_le].
Qed.

Lemma sort_by_sorted l :
  Forall P l → StronglySorted (λ a b, ¬ before b a) (sort_by before l).
Proof.
  induction l as [|x l IH]; simpl; intros HP; [constructor|].
  apply Forall_cons in HP as [Hx HP].
  apply insert_by_sorted; [done| |by apply IH].
  by rewrite sort_by_Permutation.
Qed.
End sorted.
End stable_sort_facts.

(** *** Columns of numbers *)

Section numeric_columns.

Lemma filter_all {A} (P : A → Prop) `{!∀ x, Decision (P x)} (l : list A) :
Forall P l → filter P l = l.
Proof.
induction 1 as [|x l Hx _ IH]; [done|].
by rewrite filter_cons_True, IH.
Qed.

Lemma filter_none {A} (P : A → Prop) `{!∀ x, Decision (P x)} (l : list A) :
Forall (λ x, ¬ P x) l → filter P l = [].
Proof.
induction 1 as [|x l Hx _ IH]; [done|].
by rewrite filter_cons_False.
Qed.

Lemma filter_ext_elem_of {A} (P Q : A → Prop)
  `{!∀ x, Decision (P x), !∀ x, Decision (Q x)} (l : list A) :
(∀ x, x ∈ l → P x ↔ Q x) → filter P l = filter Q l.
Proof.
induction l as [|a l IH]; intros Hl; [done|].
rewrite !filter_cons, IH by (intros x Hx; apply Hl; by right).
pose proof (Hl a (list_elem_of_here a l)).
repeat case_decide; first [done | tauto].
Qed.

Lemma number_score c r : is_number (at_col c r) → at_col c r = Num (spec.score c r).
Proof. unfold spec.score. by destruct (at_col c r). Qed.

Lemma comparable_numbers (s : Series) : Forall is_number s → comparable s = true.
Proof.
intros H. unfold comparable.
assert (existsb is_text s = false) as ->; [|by rewrite andb_false_r].
induction H as [|v s Hv _ IH]; [done|]. simpl. rewrite IH. by destruct v.
Qed.

Lemma sort_values_numbers df c :
c ∈ columns df →
Forall (λ r, is_number (at_col c r)) (rows df) →
sort_values df c false
= Ok {| columns := columns df; rows := sort_by (spec.descending c) (rows df) |}.
Proof.
intros Hc Hnum. unfold sort_values. rewrite getitem_ok by done. simpl.
rewrite comparable_numbers by by apply Forall_fmap.
do 2 f_equal.
rewrite (filter_none (λ r : row, Is_true (isna (at_col c r)))), app_nil_r.
- f_equal. apply filter_all. eapply Forall_impl; [exact Hnum|].
  intros r. cbv beta. destruct (at_col c r); simpl; tauto.
- eapply Forall_impl; [exact Hnum|].
  intros r. cbv beta. destruct (at_col c r); simpl; tauto.
Qed.

Lemma count_greater c x (l : list row) :
Forall (λ r, is_number (at_col c r)) l →
length (filter (λ w, cell_lt (Num x) w) (at_col c <$> l))
= length (filter (λ r, x < spec.score c r) l).
Proof.
induction 1 as [|r l Hr _ IH]; [done|].
assert (cell_lt (Num x) (at_col c r) ↔ x < spec.score c r) as Hlt.
{ rewrite (number_score c r Hr). simpl. apply bool_decide_spec. }
rewrite fmap_cons, !filter_cons.
repeat case_decide; cbn [length]; rewrite ?IH; first [done | tauto].
Qed.

Lemma rank_numbers c (l : list row) :
Forall (λ r, is_number (at_col c r)) l →
rank_min_descending (at_col c <$> l)
= Ok ((λ r, Num (1 + Z.of_nat (length (filter (λ r', spec.score c r < spec.score c r') l)))) <$> l).
Proof.
intros Hnum. unfold rank_min_descending.
rewrite comparable_numbers by by apply Forall_fmap.
f_equal. rewrite <- list_fmap_compose. apply Forall_fmap_ext_1.
eapply Forall_impl; [exact Hnum|]. intros r Hr. unfold compose.
rewrite (number_score c r Hr). cbn [isna]. by rewrite count_greater.
Qed.

End numeric_columns.

(** *** Runs of the store operations *)

(** One step of a run: the first bind, when its first computation is a
    widget call. *)
Ltac st_step :=
  unfold mbind at 1, st.M_bind at 1;
  cbn [st.render st.text_input st.file_uploader st.button st.objects st.page].

Section runs.
Context (u : st.session).
Implicit Types (σ : st.state) (l : st.ref) (df : DataFrame).

Lemma run_bind {A B} (m : st.M A) (f : A → st.M B) σ a σ' :
  m u σ = (Ok a, σ') → (m ≫= f) u σ = f a u σ'.
Proof. intros H. unfold mbind, st.M_bind. by rewrite H. Qed.

Lemma run_bind_raise {A B} (m : st.M A) (f : A → st.M B) σ e σ' :
  m u σ = (Raise e, σ') → (m ≫= f) u σ = (Raise e, σ').
Proof. intros H. unfold mbind, st.M_bind. by rewrite H. Qed.

Lemma run_load l σ df :
  st.objects σ !! l = Some df → st.load l u σ = (Ok df, σ).
Proof. intros H. unfold st.load. by rewrite H. Qed.

Lemma run_columns l σ df :
  st.objects σ !! l = Some df → st.columns l u σ = (Ok (columns df), σ).
Proof.
  intros H. unfold st.columns. by rewrite (run_bind _ _ _ _ _ (run_load _ _ _ H)).
Qed.

Lemma run_getitem l c σ df :
  st.objects σ !! l = Some df → c ∈ columns df →
  st.getitem l c u σ = (Ok (at_col c <$> rows df), σ).
Proof.
  intros H Hc. unfold st.getitem.
  rewrite (run_bind _ _ _ _ _ (run_load _ _ _ H)).
  unfold st.lift. by rewrite getitem_ok.
Qed.

Lemma run_setitem l c (f : row → cell) σ df :
  st.objects σ !! l = Some df →
  st.setitem l c (f <$> rows df) u σ
  = (Ok (),
     {| st.objects :=
          <[l := {| columns := spec.add_column c (columns df);
                    rows := (λ r, <[c := f r]> r) <$> rows df |}]> (st.objects σ);
        st.page := st.page σ |}).
Proof.
  intros H. unfold st.setitem.
  rewrite (run_bind _ _ _ _ _ (run_load _ _ _ H)).
  erewrite run_bind; [|unfold st.lift; by rewrite setitem_fmap].
  done.
Qed.

Lemma run_sort_values_numbers l c σ df :
  st.objects σ !! l = Some df → c ∈ columns df →
  Forall (λ r, is_number (at_col c r)) (rows df) →
  st.sort_values l c false u σ
  = (Ok (length (st.objects σ)),
     {| st.objects := st.objects σ ++
          [{| columns := columns df;
              rows := sort_by (spec.descending c) (rows df) |}];
        st.page := st.page σ |}).
Proof.
  intros H Hc Hnum. unfold st.sort_values.
  rewrite (run_bind _ _ _ _ _ (run_load _ _ _ H)).
  erewrite run_bind; [|unfold st.lift; by rewrite sort_values_numbers].
  done.
Qed.
End runs.

(** *** What [calculate_total_and_rank] does to the store *)

Section calculate_total_and_rank.
Context (u : st.session).

Lemma marks_table_column df c :
  spec.marks_table df → c ∈ ["mark1"; "mark2"; "mark3"] →
  c ∈ columns df ∧ Forall (λ r, ¬ is_text (at_col c r)) (rows df).
Proof.
  unfold spec.marks_table. rewrite Forall_forall. intros H Hc. by apply H.
Qed.

Lemma at_col_insert c v (r : row) : at_col c (<[c := v]> r) = v.
Proof. unfold at_col. by rewrite lookup_insert_eq. Qed.

Lemma at_col_insert_ne c c' v (r : row) :
  c ≠ c' → at_col c' (<[c := v]> r) = at_col c' r.
Proof. intros. unfold at_col. by rewrite lookup_insert_ne. Qed.

Lemma elem_of_add_column c cs : c ∈ spec.add_column c cs.
Proof.
  unfold spec.add_column. case_bool_decide; [done|].
  apply elem_of_app. right. constructor.
Qed.

Lemma elem_of_add_column_ne c c' cs :
  c ≠ c' → c' ∈ spec.add_column c cs ↔ c' ∈ cs.
Proof.
  intros. unfold spec.add_column. destruct (bool_decide (c ∈ cs)); [done|].
  rewrite elem_of_app, list_elem_of_singleton. intuition congruence.
Qed.

Lemma totalled_numbers df :
  Forall (λ r, is_number (at_col "total marks" r)) (rows (spec.totalled df)).
Proof.
  apply Forall_fmap, Forall_true. intros r. unfold compose, spec.with_total.
  by rewrite at_col_insert.
Qed.

Lemma calculate_total_and_rank_run (l : st.ref) σ df :
  st.objects σ !! l = Some df →
  spec.marks_table df →
  talentfinder.calculate_total_and_rank l u σ
  = (Ok (length (st.objects σ)),
     {| st.objects := <[l := spec.totalled df]> (st.objects σ) ++ [spec.ranked df];
        st.page := st.page σ |}).
Proof.
  intros Hl Hdf.
  destruct (marks_table_column df "mark1" Hdf) as [Hc1 Hn1]; [set_solver|].
  destruct (marks_table_column df "mark2" Hdf) as [Hc2 Hn2]; [set_solver|].
  destruct (marks_table_column df "mark3" Hdf) as [Hc3 Hn3]; [set_solver|].
  unfold talentfinder.calculate_total_and_rank.
  rewrite (run_bind u _ _ _ _ _ (run_getitem u _ _ _ _ Hl Hc1)).
  rewrite (run_bind u _ _ _ _ _ (run_getitem u _ _ _ _ Hl Hc2)).
  rewrite !fillna_score by done.
  erewrite run_bind; [|unfold st.lift; by rewrite add_numbers].
  rewrite (run_bind u _ _ _ _ _ (run_getitem u _ _ _ _ Hl Hc3)).
  rewrite !fillna_score by done.
  erewrite run_bind; [|unfold st.lift; by rewrite add_numbers].
  erewrite run_bind; [|by apply run_setitem].
  fold (spec.totalled df).
  set (σ1 := {| st.objects := <[l := spec.totalled df]> (st.objects σ);
                st.page := st.page σ |}).
  assert (st.objects σ1 !! l = Some (spec.totalled df)) as Hl1.
  { apply list_lookup_insert_eq. by eapply lookup_lt_Some. }
  erewrite run_bind; cycle 1.
  { apply (run_sort_values_numbers u l "total marks" σ1 _ Hl1).
    - apply elem_of_add_column.
    - apply totalled_numbers. }
  set (sorted := sort_by (spec.descending "total marks") (rows (spec.totalled df))).
  set (df2 := {| columns := columns (spec.totalled df); rows := sorted |}).
  set (σ2 := {| st.objects := st.objects σ1 ++ [df2]; st.page := st.page σ1 |}).
  assert (st.objects σ2 !! length (st.objects σ1) = Some df2) as Hl2.
  { simpl. by rewrite list_lookup_middle. }
  assert (Forall (λ r, is_number (at_col "total marks" r)) sorted) as Hsorted.
  { unfold sorted. rewrite sort_by_Permutation. apply totalled_numbers. }
  erewrite run_bind; cycle 1.
  { apply (run_getitem u _ "total marks" σ2 df2 Hl2). apply elem_of_add_column. }
  erewrite run_bind; [|unfold st.lift; simpl; by rewrite rank_numbers].
  erewrite run_bind; [|by apply (run_setitem u _ "Rank" _ σ2 df2)].
  unfold mret, st.M_ret. simpl. rewrite length_insert. f_equal. f_equal.
  rewrite insert_app_r_alt by (by rewrite length_insert).
  rewrite length_insert, Nat.sub_diag. done.
Qed.
End calculate_total_and_rank.

(** *** Order and ranks of the returned table *)

Section ranking.

Lemma StronglySorted_weaken {A} (P : A → Prop) (R R' : relation A) l :
Forall P l → (∀ x y, P x → P y → R x y → R' x y) →
StronglySorted R l → StronglySorted R' l.
Proof.
intros HP HR. induction 1 as [|x l _ IH Hx]; [constructor|].
apply Forall_cons in HP as [Px HP]. constructor; [by apply IH|].
rewrite Forall_forall in Hx, HP |- *. intros y Hy. apply HR; auto.
Qed.

Lemma cell_lt_numbers c (r1 r2 : row) :
is_number (at_col c r1) → is_number (at_col c r2) →
cell_lt (at_col c r1) (at_col c r2) ↔ spec.score c r1 < spec.score c r2.
Proof.
intros H1 H2. rewrite (number_score c r1 H1), (number_score c r2 H2) at 1.
simpl. apply bool_decide_spec.
Qed.

(** A descending sort by a column of numbers leaves no row in front of a
  row with a greater value. *)
Lemma descending_sorted c (l : list row) :
Forall (λ r, is_number (at_col c r)) l →
StronglySorted (λ r1 r2, spec.score c r2 ≤ spec.score c r1)
  (sort_by (spec.descending c) l).
Proof.
intros Hnum.
apply (StronglySorted_weaken (λ r, is_number (at_col c r))
         (λ a b, ¬ spec.descending c b a)).
- by rewrite sort_by_Permutation.
- intros x y Hx Hy. unfold spec.descending. rewrite cell_lt_numbers by done. lia.
- apply (sort_by_sorted _ (λ r, is_number (at_col c r))); [| |done].
  + intros x y Hx Hy. unfold spec.descending. rewrite !cell_lt_numbers by done. lia.
  + intros x y z Hx Hy Hz. unfold spec.descending.
    rewrite !cell_lt_numbers by done. lia.
Qed.

Lemma competition_rank_Permutation (l l' : list row) r :
l ≡ₚ l' → spec.competition_rank l r = spec.competition_rank l' r.
Proof. intros H. unfold spec.competition_rank. by rewrite H. Qed.

Lemma competition_rank_fmap (f : row → row) (l : list row) r :
(∀ r', spec.score "total marks" (f r') = spec.score "total marks" r') →
spec.competition_rank (f <$> l) r = spec.competition_rank l r.
Proof.
intros Hf. unfold spec.competition_rank. do 2 f_equal.
induction l as [|x l IH]; [done|].
rewrite fmap_cons, !filter_cons. cbv beta. rewrite Hf.
case_decide; cbn [length]; by rewrite IH.
Qed.

Lemma competition_rank_tied (l : list row) r1 r2 :
spec.score "total marks" r1 = spec.score "total marks" r2 →
spec.competition_rank l r1 = spec.competition_rank l r2.
Proof. intros H. unfold spec.competition_rank. by rewrite H. Qed.

Lemma count_greater_mono (l : list row) (a b : Z) :
b ≤ a →
(length (filter (λ r, (a < spec.score "total marks" r)%Z) l)
 ≤ length (filter (λ r, (b < spec.score "total marks" r)%Z) l))%nat.
Proof.
intros Hab. induction l as [|x l IH]; [done|].
rewrite !filter_cons. repeat case_decide; cbn [length]; lia.
Qed.

Lemma competition_rank_mono (l : list row) r1 r2 :
spec.score "total marks" r2 ≤ spec.score "total marks" r1 →
spec.competition_rank l r1 ≤ spec.competition_rank l r2.
Proof.
intros H. unfold spec.competition_rank.
pose proof (count_greater_mono l _ _ H). lia.
Qed.

Lemma competition_rank_top (l : list row) r :
Forall (λ r', spec.score "total marks" r' ≤ spec.score "total marks" r) l →
spec.competition_rank l r = 1.
Proof.
intros H. unfold spec.competition_rank. rewrite filter_none; [done|].
eapply Forall_impl; [exact H|]. intros r'. simpl. lia.
Qed.

End ranking.

(** *** Totals and ranks *)

Section totals_and_ranks.
Context (u : st.session).

Lemma total_with_total r : spec.total (spec.with_total r) = spec.total r.
Proof.
  unfold spec.total, spec.score, spec.with_total.
  by rewrite !at_col_insert_ne.
Qed.

Lemma ranked_rows_Permutation df :
  rows (spec.ranked df) ≡ₚ
    (λ r, <["Rank" := Num (spec.competition_rank
                              (sort_by (spec.descending "total marks")
                                 (rows (spec.totalled df)))
                              (spec.with_total r))]>
            (<["total marks" := Num (spec.total r)]> r)) <$> rows df.
Proof.
  unfold spec.ranked. cbn [rows spec.totalled].
  etrans; [apply fmap_Permutation, sort_by_Permutation|].
  by rewrite <- list_fmap_compose.
Qed.

Lemma ranked_rows_total df :
  Forall (λ r, at_col "total marks" r = Num (spec.total r)) (rows (spec.ranked df)).
Proof.
  rewrite ranked_rows_Permutation. apply Forall_fmap, Forall_true. intros r.
  unfold compose. rewrite at_col_insert_ne, at_col_insert by done.
  f_equal. unfold spec.total, spec.score. by rewrite !at_col_insert_ne.
Qed.

(** C2.  For every marks table, the call returns a table whose rows are
    the rows of the argument, each with a total and a rank, and in every
    row the total is the sum of the three score fields of that row with
    a blank score counted as 0. *)
Theorem total_is_sum_of_scores (l : st.ref) (σ : st.state) (df : DataFrame) :
  st.objects σ !! l = Some df →
  spec.marks_table df →
  ∃ l' σ' out,
    talentfinder.calculate_total_and_rank l u σ = (Ok l', σ') ∧
    st.objects σ' !! l' = Some out ∧
    (∃ rank : row → cell,
       rows out ≡ₚ
         (λ r, <["Rank" := rank r]> (<["total marks" := Num (spec.total r)]> r))
           <$> rows df) ∧
    Forall (λ r, at_col "total marks" r
                 = Num (spec.score "mark1" r + spec.score "mark2" r
                        + spec.score "mark3" r)) (rows out).
Proof.
  intros Hl Hdf. eexists _, _, (spec.ranked df).
  split; [by apply calculate_total_and_rank_run|].
  split; [cbn [st.objects]; by rewrite list_lookup_middle by by rewrite length_insert|].
  split; [eexists; apply ranked_rows_Permutation|].
  apply ranked_rows_total.
Qed.

End totals_and_ranks.

Lemma total_is_sum_of_scores_witness :
  ∃ l' σ' out,
    talentfinder.calculate_total_and_rank 0%nat Examples.no_input Examples.start
      = (Ok l', σ') ∧
    st.objects σ' !! l' = Some out ∧
    Forall (λ r, at_col "total marks" r
                 = Num (spec.score "mark1" r + spec.score "mark2" r
                        + spec.score "mark3" r)) (rows out).
Proof.
  destruct (total_is_sum_of_scores Examples.no_input 0%nat Examples.start
              Examples.two_rows) as (l' & σ' & out & Hrun & Hout & _ & Hsum).
  - reflexivity.
  - apply (bool_decide_unpack _). by vm_compute.
  - exists l', σ', out. split; [exact Hrun|]. split; [exact Hout|exact Hsum].
Defined.

Section competition_ranking.
Context (u : st.session).

Lemma score_total_ranked_row (rank : row → cell) r :
  spec.score "total marks" (<["Rank" := rank r]> r) = spec.score "total marks" r.
Proof. unfold spec.score. by rewrite at_col_insert_ne. Qed.

Lemma ranked_rows_rank df :
  Forall (λ r, at_col "Rank" r = Num (spec.competition_rank (rows (spec.ranked df)) r))
    (rows (spec.ranked df)).
Proof.
  unfold spec.ranked. cbn [rows].
  set (sorted := sort_by _ _).
  rewrite (Forall_fmap _ _ sorted). apply Forall_true. intros r. unfold compose.
  rewrite at_col_insert. f_equal.
  rewrite (competition_rank_fmap (λ r, <["Rank" := _]> r))
    by (intros r'; apply (score_total_ranked_row (λ r, Num (spec.competition_rank sorted r)))).
  apply competition_rank_tied.
  by rewrite (score_total_ranked_row (λ r, Num (spec.competition_rank sorted r))).
Qed.

End competition_ranking.


(** *** The argument is changed in place *)

Section frame.
Context (u : st.session).

Lemma ranked_rows_sorted df :
  StronglySorted (λ r1 r2, spec.total r2 ≤ spec.total r1) (rows (spec.ranked df)).
Proof.
  apply (StronglySorted_weaken
           (λ r, spec.score "total marks" r = spec.total r)
           (λ r1 r2, spec.score "total marks" r2 ≤ spec.score "total marks" r1)).
  - eapply Forall_impl; [apply ranked_rows_total|].
    intros r Hr. unfold spec.score. by rewrite Hr.
  - intros x y Hx Hy. by rewrite Hx, Hy.
  - unfold spec.ranked. cbv zeta. cbn [rows].
    eapply StronglySorted_fmap; [|apply descending_sorted, totalled_numbers].
    intros x y Hxy. cbv beta. unfold spec.score in *.
    by rewrite !at_col_insert_ne.
Qed.

End frame.


(** C8.  The example of the specification: for the two participants with
    scores 60, 70, 80 and 90, 0, 0 the call returns the totals 210 and
    90 and the ranks 1 and 2, in this order. *)
Theorem example_totals_and_ranks :
  ∃ l' σ' out,
    talentfinder.calculate_total_and_rank 0%nat Examples.no_input Examples.start
      = (Ok l', σ') ∧
    st.objects σ' !! l' = Some out ∧
    getitem out "mark1" = Ok [Num 60; Num 90] ∧
    getitem out "mark2" = Ok [Num 70; Num 0] ∧
    getitem out "mark3" = Ok [Num 80; Num 0] ∧
    getitem out "total marks" = Ok [Num 210; Num 90] ∧
    getitem out "Rank" = Ok [Num 1; Num 2].
Proof.
  exists 1%nat, {| st.objects := [spec.totalled Examples.two_rows;
                                   spec.ranked Examples.two_rows];
                   st.page := [] |}, (spec.ranked Examples.two_rows).
  split.
  { apply (calculate_total_and_rank_run Examples.no_input 0%nat Examples.start
             Examples.two_rows); [reflexivity|].
    apply (bool_decide_unpack _). vm_compute. exact I. }
  split; [reflexivity|].
  repeat split; vm_compute; reflexivity.
Qed.

(** *** Merging with the master data: the join key *)

Section join_key.
Context (u : st.session).

Lemma merge_without_key (marks_df master_df : st.ref) σ marks master :
  st.objects σ !! marks_df = Some marks →
  st.objects σ !! master_df = Some master →
  "Chest No" ∉ columns marks ∨ "Chest No" ∉ columns master →
  talentfinder.merge_with_master_data marks_df master_df u σ
  = (Ok None,
     {| st.objects := st.objects σ;
        st.page := st.page σ
          ++ [st.error "Chest No column not found in one or both files"] |}).
Proof.
  intros Hmarks Hmaster Hkey. unfold talentfinder.merge_with_master_data.
  rewrite (run_bind u _ _ _ _ _ (run_columns u _ _ _ Hmarks)).
  rewrite (run_bind u _ _ _ _ _ (run_columns u _ _ _ Hmaster)).
  destruct Hkey as [Hkey|Hkey]; rewrite (bool_decide_false _ Hkey);
    rewrite ?andb_false_r; done.
Qed.

(** C4.  There is no merged table when the 'Chest No' column is missing
    from the marks table or from the master table: the call puts the
    error on the page and returns [None], and nothing else happens.  So
    a merged table is returned only when both tables have the column. *)
Theorem merge_needs_key_in_both (marks_df master_df : st.ref) (σ : st.state)
    (marks master : DataFrame) :
  st.objects σ !! marks_df = Some marks →
  st.objects σ !! master_df = Some master →
  ("Chest No" ∉ columns marks ∨ "Chest No" ∉ columns master →
     talentfinder.merge_with_master_data marks_df master_df u σ
     = (Ok None,
        {| st.objects := st.objects σ;
           st.page := st.page σ
             ++ [st.error "Chest No column not found in one or both files"] |})) ∧
  (∀ merged_df σ',
     talentfinder.merge_with_master_data marks_df master_df u σ
     = (Ok (Some merged_df), σ') →
     "Chest No" ∈ columns marks ∧ "Chest No" ∈ columns master).
Proof.
  intros Hmarks Hmaster. split; [by apply merge_without_key|].
  intros merged_df σ' Hrun.
  destruct (decide ("Chest No" ∈ columns marks)) as [?|Hno];
    [destruct (decide ("Chest No" ∈ columns master)) as [?|Hno]; [done|]|].
  - rewrite (merge_without_key _ _ _ _ _ Hmarks Hmaster) in Hrun by by right.
    discriminate.
  - rewrite (merge_without_key _ _ _ _ _ Hmarks Hmaster) in Hrun by by left.
    discriminate.
Qed.
End join_key.

Lemma merge_needs_key_in_both_witness :
  talentfinder.merge_with_master_data 0%nat 1%nat Examples.no_input
    {| st.objects := [Examples.two_rows; Examples.names_only]; st.page := [] |}
  = (Ok None,
     {| st.objects := [Examples.two_rows; Examples.names_only];
        st.page := [st.error "Chest No column not found in one or both files"] |}).
Proof.
  apply (merge_needs_key_in_both Examples.no_input 0%nat 1%nat
           {| st.objects := [Examples.two_rows; Examples.names_only]; st.page := [] |}
           Examples.two_rows Examples.names_only).
  - reflexivity.
  - reflexivity.
  - right. apply (bool_decide_unpack _). by vm_compute.
Defined.

(** *** Download without an event name *)

Section download.
Context (u : st.session).

Lemma add_missing_columns_run (l : st.ref) (missing : list string) σ df :
  st.objects σ !! l = Some df →
  talentfinder.add_missing_columns l missing u σ
  = (Ok (),
     {| st.objects :=
          <[l := foldl (λ df col, setitem_scalar df col NaN) df missing]> (st.objects σ);
        st.page := st.page σ |}).
Proof.
  revert σ df. induction missing as [|col missing IH]; intros σ df Hl.
  - simpl. unfold mret, st.M_ret. rewrite list_insert_id by done. by destruct σ.
  - cbn [talentfinder.add_missing_columns foldl].
    erewrite run_bind; cycle 1.
    { unfold st.setitem_scalar.
      rewrite (run_bind u _ _ _ _ _ (run_load u _ _ _ Hl)). reflexivity. }
    rewrite (IH _ (setitem_scalar df col NaN)).
    + cbn [st.objects st.page]. by rewrite list_insert_insert_eq.
    + cbn [st.objects]. apply list_lookup_insert_eq. by eapply lookup_lt_Some.
Qed.

Lemma read_excel_run σ df :
  st.read_excel (Ok df) u σ
  = (Ok (length (st.objects σ)),
     {| st.objects := st.objects σ ++ [df]; st.page := st.page σ |}).
Proof. done. Qed.

Lemma data_editor_run (l : st.ref) σ df :
  st.objects σ !! l = Some df →
  st.data_editor l u σ
  = (Ok (length (st.objects σ)),
     {| st.objects := st.objects σ ++ [st.edits u df]; st.page := st.page σ |}).
Proof.
  intros Hl. unfold st.data_editor.
  by rewrite (run_bind u _ _ _ _ _ (run_load u _ _ _ Hl)).
Qed.

(** C7.  When the marks workbook is loaded and Download Result is
    pressed with an empty event name, the run ends normally after putting
    the error on the page.  The page gets no download button, and the
    only table objects of the run are the uploaded marks table and its
    edited copy: no totals or ranks are computed, the master workbook is
    not read, and nothing is merged. *)
Theorem download_needs_event_name (σ : st.state) (marks : DataFrame) :
  st.pressed u = Some "Download Result" →
  default "" (st.text_inputs u !! "Enter Event Name") = "" →
  st.uploads u !! "Upload Excel file with Chest Numbers" = Some (Ok marks) →
  ∃ σ',
    talentfinder.main u σ = (Ok (), σ') ∧
    st.objects σ'
    = st.objects σ ++ [spec.with_required_columns marks;
                       st.edits u (spec.with_required_columns marks)] ∧
    st.page σ'
    = st.page σ ++ [st.title "Event Results Calculator";
                    st.subheader "Upload Marks Entry File";
                    st.subheader "Upload Master Data";
                    st.write "Enter marks in the table below:";
                    st.error "Please enter an event name before downloading"].
Proof.
  intros Hpressed Hname Hmarks. eexists.
  unfold talentfinder.main.
  do 2 st_step. rewrite Hname.
  do 2 st_step. rewrite Hmarks.
  do 2 st_step.
  unfold st.try_except.
  erewrite run_bind; [|apply read_excel_run].
  set (σ1 := {| st.objects := _ ++ [marks] |}).
  assert (st.objects σ1 !! length (st.objects σ) = Some marks) as Hl1.
  { subst σ1. cbn [st.objects]. by rewrite list_lookup_middle. }
  erewrite run_bind; [|by apply run_columns].
  erewrite run_bind; [|by apply add_missing_columns_run].
  fold (spec.with_required_columns marks).
  st_step.
  erewrite run_bind; cycle 1.
  { apply data_editor_run. cbn [st.objects].
    apply list_lookup_insert_eq. by eapply lookup_lt_Some. }
  st_step. rewrite Hpressed, bool_decide_false by done.
  st_step. unfold mret at 1, st.M_ret at 1.
  st_step. rewrite bool_decide_true by done.
  unfold talentfinder.download_result.
  rewrite bool_decide_true by done. cbn [st.render st.objects st.page].
  split; [done|]. cbn [st.objects st.page]. split.
  - rewrite insert_app_r_alt, Nat.sub_diag by done.
    by rewrite <- app_assoc.
  - subst σ1. cbn [st.page]. by rewrite <- !app_assoc.
Qed.
End download.

Lemma download_needs_event_name_witness :
  ∃ σ',
    talentfinder.main Examples.download_without_name Examples.blank_page = (Ok (), σ') ∧
    st.page σ'
    = [st.title "Event Results Calculator";
       st.subheader "Upload Marks Entry File";
       st.subheader "Upload Master Data";
       st.write "Enter marks in the table below:";
       st.error "Please enter an event name before downloading"].
Proof.
  destruct (download_needs_event_name Examples.download_without_name
              Examples.blank_page Examples.two_rows) as (σ' & Hrun & _ & Hpage).
  - reflexivity.
  - reflexivity.
  - reflexivity.
  - exists σ'. split; [exact Hrun|exact Hpage].
Defined.

(** *** Categories of the dashboard *)

(** C9.  For a category other than 'Student', 'Church', 'Section' and
    'Region' the function falls through all branches: it returns [None]
    and raises nothing, whatever the table. *)
Theorem unknown_category_gives_none (df : DataFrame) (category : string) (n : nat) :
  category ∉ ["Student"; "Church"; "Section"; "Region"] →
  talentfinderpro.get_top_performers df category n = Ok None.
Proof.
  intros Hcat. unfold talentfinderpro.get_top_performers.
  rewrite !bool_decide_false; [done|intros ->; apply Hcat..].
  - do 3 right; left.
  - do 2 right; left.
  - right; left.
  - left.
Qed.

Lemma unknown_category_gives_none_witness :
  talentfinderpro.get_top_performers Examples.two_rows "Team" 5 = Ok None.
Proof.
  apply unknown_category_gives_none.
  apply (bool_decide_unpack _). by vm_compute.
Defined.

(** *** Column selection, join and sort of arbitrary tables *)

Section merge_facts.

Lemma getitems_ok df cs :
  Forall (λ c, c ∈ columns df) cs →
  getitems df cs
  = Ok {| columns := cs; rows := (λ r, filter (λ kv, kv.1 ∈ cs) r) <$> rows df |}.
Proof.
  intros Hcs. unfold getitems. rewrite filter_none; [done|].
  eapply Forall_impl; [exact Hcs|]. intros c Hc. cbv beta. tauto.
Qed.

Lemma at_col_restrict (cs : list string) c (r : row) :
  c ∈ cs → at_col c (filter (λ kv, kv.1 ∈ cs) r) = at_col c r.
Proof.
  intros Hc. unfold at_col. rewrite map_lookup_filter.
  destruct (r !! c) as [v|]; [|done]. simpl. by rewrite option_guard_True.
Qed.

Lemma lookup_list_to_map_columns (f : string → cell) (cs : list string) c :
  (list_to_map ((λ c, (c, f c)) <$> cs) : row) !! c
  = if bool_decide (c ∈ cs) then Some (f c) else None.
Proof.
  induction cs as [|c' cs IH].
  - by rewrite bool_decide_false by apply not_elem_of_nil.
  - rewrite fmap_cons, list_to_map_cons. destruct (decide (c' = c)) as [->|Hne].
    + rewrite lookup_insert_eq. by rewrite bool_decide_true by left.
    + rewrite lookup_insert_ne, IH by done.
      rewrite (bool_decide_ext (c ∈ c' :: cs) (c ∈ cs)); [done|].
      rewrite elem_of_cons. intuition congruence.
Qed.

(** Without shared column names nothing is renamed. *)
Lemma merged_row_disjoint left right key (lr : option row) (rr : row) :
  merged_row left right key [] lr rr
  = list_to_map ((λ c, (c, if bool_decide (c = key) then at_col key rr
                           else from_option (at_col c) NaN lr)) <$> columns left)
    ∪ list_to_map ((λ c, (c, at_col c rr)) <$> filter (λ c, c ≠ key) (columns right)).
Proof. unfold merged_row. by rewrite list_to_map_app. Qed.

Lemma merged_row_right left right key lr rr c :
  key ∈ columns left →
  (∀ c, c ∈ columns left → c ∈ columns right → c = key) →
  c ∈ columns right →
  at_col c (merged_row left right key [] lr rr) = at_col c rr.
Proof.
  intros Hkey Hdisj Hc. rewrite merged_row_disjoint. unfold at_col at 1.
  rewrite lookup_union, !lookup_list_to_map_columns.
  destruct (decide (c = key)) as [->|Hne].
  - rewrite (bool_decide_true (key ∈ columns left)) by done.
    rewrite (bool_decide_true (key = key)) by done.
    by destruct (bool_decide _).
  - rewrite (bool_decide_false (c ∈ columns left)) by (intros ?; by apply Hne, Hdisj).
    rewrite bool_decide_true; [done|]. by apply list_elem_of_filter.
Qed.


Lemma merge_right_disjoint left right key :
  key ∈ columns left → key ∈ columns right →
  (∀ c, c ∈ columns left → c ∈ columns right → c = key) →
  NoDup (columns left) → NoDup (columns right) →
  key_kinds_differ (at_col key <$> rows left) (at_col key <$> rows right) = false →
  merge_right left right key
  = Ok {| columns := columns left ++ filter (λ c, c ≠ key) (columns right);
          rows := rr ← rows right;
            match filter (λ lr, at_col key lr = at_col key rr) (rows left) with
            | [] => [merged_row left right key [] None rr]
            | ms => (λ lr, merged_row left right key [] (Some lr) rr) <$> ms
            end |}.
Proof.
  intros Hl Hr Hdisj Hnl Hnr Hkinds. unfold merge_right.
  rewrite !getitem_ok by done. cbn [mbind result_bind]. rewrite Hkinds.
  rewrite (filter_none (λ c, c ≠ key ∧ c ∈ columns right)); cycle 1.
  { rewrite Forall_forall. intros c Hc [Hne Hcr]. by apply Hne, Hdisj. }
  assert (∀ sfx (cs : list string), with_suffix [] sfx <$> cs = cs) as Hsfx.
  { intros sfx cs. rewrite <- (list_fmap_id cs) at 2. apply list_fmap_ext.
    intros i c _. unfold with_suffix.
    by rewrite bool_decide_false by apply not_elem_of_nil. }
  rewrite !Hsfx. rewrite bool_decide_true; [done|].
  apply NoDup_app. split; [done|]. split; [|by apply NoDup_filter].
  intros c Hc [Hne Hcr]%list_elem_of_filter. by apply Hne, Hdisj.
Qed.

Lemma sort_values_comparable df c :
  c ∈ columns df →
  comparable (at_col c <$> rows df) = true →
  ∃ out, sort_values df c false = Ok out ∧
         columns out = columns df ∧ rows out ≡ₚ rows df.
Proof.
  intros Hc Hcmp. unfold sort_values. rewrite getitem_ok by done.
  cbn [mbind result_bind]. rewrite Hcmp. eexists. split; [done|].
  split; [done|]. cbn [rows]. rewrite sort_by_Permutation.
  rewrite (comm (++)).
  apply (filter_app_complement (λ r : row, Is_true (isna (at_col c r)))).
Qed.

End merge_facts.

(** *** Merging with the master data: the right join *)

Section right_join.
Context (u : st.session).

Lemma comparable_subseteq (s s' : Series) :
  (∀ v, v ∈ s' → v ∈ s) → comparable s = true → comparable s' = true.
Proof.
  unfold comparable. intros Hsub Hs.
  apply negb_true_iff, andb_false_iff in Hs. apply negb_true_iff, andb_false_iff.
  destruct Hs as [Hs|Hs]; [left|right];
    apply not_true_iff_false; apply not_true_iff_false in Hs;
    intros (v & Hv & ?)%existsb_exists; apply Hs, existsb_exists;
    exists v; (split; [|done]);
    apply list_elem_of_In, Hsub, list_elem_of_In, Hv.
Qed.

Lemma restricted_column (cs : list string) c (l : list row) :
  c ∈ cs →
  at_col c <$> ((λ r : row, filter (λ kv, kv.1 ∈ cs) r) <$> l) = at_col c <$> l.
Proof.
  intros Hc. rewrite <- list_fmap_compose. apply list_fmap_ext.
  intros i r _. by apply at_col_restrict.
Qed.


Lemma elem_of_joined marks master (r' : row) :
  r' ∈ spec.joined marks master ↔
  ∃ r, r ∈ rows marks ∧
    ((∃ m, m ∈ rows master ∧ at_col "Chest No" m = at_col "Chest No" r ∧
           r' = merged_row master (spec.results_of marks) "Chest No" [] (Some m)
                  (filter (λ kv, kv.1 ∈ spec.result_columns) r)) ∨
     ((∀ m, m ∈ rows master → at_col "Chest No" m ≠ at_col "Chest No" r) ∧
      r' = merged_row master (spec.results_of marks) "Chest No" [] None
             (filter (λ kv, kv.1 ∈ spec.result_columns) r))).
Proof.
  unfold spec.joined. rewrite list_elem_of_bind. cbn [spec.results_of rows].
  setoid_rewrite list_elem_of_fmap.
  assert (∀ r : row, at_col "Chest No" (filter (λ kv, kv.1 ∈ spec.result_columns) r)
                     = at_col "Chest No" r) as Hkey.
  { intros r. apply at_col_restrict. by left. }
  split.
  - intros (rr & Hr' & r & -> & Hr). exists r. split; [done|].
    rewrite Hkey in Hr'.
    destruct (filter _ (rows master)) as [|m0 ms] eqn:Hms.
    + right. apply list_elem_of_singleton in Hr'. split; [|done].
      intros m Hm Heq. by eapply (filter_nil_not_elem_of _ _ m Hms).
    + left. apply list_elem_of_fmap in Hr' as (m & -> & Hm).
      rewrite <- Hms in Hm. apply list_elem_of_filter in Hm as [Heq Hm]. by exists m.
  - intros (r & Hr & Hcases). eexists. split; [|by exists r].
    rewrite Hkey.
    destruct (filter _ (rows master)) as [|m0 ms] eqn:Hms.
    + destruct Hcases as [(m & Hm & Heq & _)|[_ ->]]; [|by left].
      by destruct (filter_nil_not_elem_of _ _ m Hms).
    + destruct Hcases as [(m & Hm & Heq & ->)|[Hnone _]].
      * apply list_elem_of_fmap. exists m. split; [done|].
        rewrite <- Hms. by apply list_elem_of_filter.
      * assert (m0 ∈ filter (λ lr : row, at_col "Chest No" lr = at_col "Chest No" r)
                       (rows master)) as Hm0 by (rewrite Hms; by left).
        apply list_elem_of_filter in Hm0 as [Heq Hm0]. by destruct (Hnone m0).
Qed.


End right_join.


(** The merged table of the example: participant 102 is kept with a blank
    name, participant 999 of the roster is not there. *)
Example merged_example :
  (λ merged, (columns merged, values merged)) <$>
    spec.returned_table
      (talentfinder.merge_with_master_data 0%nat 1%nat Examples.no_input
         {| st.objects := [Examples.results; Examples.roster]; st.page := [] |})
  = Some (["Chest No"; "Name"; "mark1"; "mark2"; "mark3"; "total marks"; "Rank"],
          [[Num 101; Str "Ann"; Num 60; Num 70; Num 80; Num 210; Num 1];
           [Num 102; NaN; Num 90; Num 0; Num 0; Num 90; Num 2]]).
Proof. vm_compute. reflexivity. Qed.


(** *** The order of cells and of group keys *)

Section key_order.

Lemma cell_lt_irrefl a : ¬ cell_lt a a.
Proof.
  destruct a as [|x|s]; simpl; [tauto| |]; rewrite bool_decide_spec; [lia|tauto].
Qed.

Lemma cell_lt_trans a b c : cell_lt a b → cell_lt b c → cell_lt a c.
Proof.
  destruct a as [|x|s], b as [|y|t], c as [|z|w]; simpl; try tauto;
    rewrite ?bool_decide_spec; [lia|].
  intros [Hst Hne] [Htw Hne']. split; [by etrans|].
  intros ->. apply Hne. by apply (anti_symm String.le).
Qed.

Lemma cell_lt_total a b :
  ¬ isna a → ¬ isna b → a ≠ b → cell_lt a b ∨ cell_lt b a.
Proof.
  destruct a as [|x|s], b as [|y|t]; simpl; try tauto;
    rewrite ?bool_decide_spec; intros _ _ Hne.
  - assert (x ≠ y) by congruence. lia.
  - assert (s ≠ t) by congruence.
    destruct (total String.le s t); [left|right]; split; congruence.
Qed.

Lemma key_lt_irrefl k : ¬ key_lt k k.
Proof.
  induction k as [|a k IH]; simpl; [tauto|].
  rewrite orb_True, andb_True. intros [Hlt|[_ Hlt]]; [by eapply cell_lt_irrefl|done].
Qed.

Lemma key_lt_trans k1 k2 k3 : key_lt k1 k2 → key_lt k2 k3 → key_lt k1 k3.
Proof.
  revert k2 k3. induction k1 as [|a k1 IH]; intros [|b k2] [|c k3]; simpl; try tauto.
  rewrite !orb_True, !andb_True, !bool_decide_spec.
  intros [Hab|[-> H12]] [Hbc|[-> H23]].
  - left. by eapply cell_lt_trans.
  - by left.
  - by left.
  - right. split; [done|]. by eapply IH.
Qed.

Lemma key_lt_total k1 k2 :
  length k1 = length k2 →
  Forall (λ v, ¬ isna v) k1 → Forall (λ v, ¬ isna v) k2 →
  k1 ≠ k2 → key_lt k1 k2 ∨ key_lt k2 k1.
Proof.
  revert k2. induction k1 as [|a k1 IH]; intros [|b k2]; simpl; try done.
  intros [= Hlen] [Ha H1]%Forall_cons [Hb H2]%Forall_cons Hne.
  rewrite !orb_True, !andb_True, !bool_decide_spec.
  destruct (decide (a = b)) as [->|Hab].
  - destruct (IH k2) as [?|?]; [done..|congruence| |]; tauto.
  - destruct (cell_lt_total a b) as [?|?]; tauto.
Qed.

(** A list sorted by a strict total order, without repetitions. *)
Lemma strictly_sorted {A} (lt : A → A → bool) (P : A → Prop) l :
  (∀ x y, P x → P y → x ≠ y → lt x y ∨ lt y x) →
  Forall P l → NoDup l →
  StronglySorted (λ a b, ¬ lt b a) l → StronglySorted (λ a b, lt a b) l.
Proof.
  intros Htotal HP Hnd. induction 1 as [|x l _ IH Hx]; [constructor|].
  apply Forall_cons in HP as [Px HP]. apply NoDup_cons in Hnd as [Hxl Hnd].
  constructor; [by apply IH|].
  rewrite Forall_forall in Hx, HP |- *. intros y Hy.
  destruct (Htotal x y) as [?|?]; [done|by apply HP|congruence|done|].
  by destruct (Hx y Hy).
Qed.

End key_order.

(** *** Grouped sums *)

Section grouped_sums.

Lemma add_all_numbers c (a : Z) (l : list row) :
  Forall (λ r, ¬ is_text (at_col c r)) l →
  add_all (Num a) (filter (λ v, ¬ isna v) (at_col c <$> l))
  = Ok (Num (a + spec.column_sum c l)).
Proof.
  intros H. revert a. induction H as [|r l Hr _ IH]; intros a.
  { simpl. by rewrite Z.add_0_r. }
  rewrite fmap_cons, filter_cons. cbn [spec.column_sum foldr].
  fold (spec.column_sum c l). revert Hr. unfold spec.score.
  destruct (at_col c r) as [|x|s]; simpl; intros Hr.
  - rewrite IH. apply f_equal, f_equal. lia.
  - rewrite IH. apply f_equal, f_equal. lia.
  - by destruct Hr.
Qed.

Lemma sum_cells_cons v (s : Series) :
  sum_cells (v :: s)
  = if isna v then sum_cells s else add_all v (filter (λ v, ¬ isna v) s).
Proof. unfold sum_cells. by destruct v. Qed.

Lemma sum_cells_numbers c (l : list row) :
  Forall (λ r, ¬ is_text (at_col c r)) l →
  sum_cells (at_col c <$> l) = Ok (Num (spec.column_sum c l)).
Proof.
  induction 1 as [|r l Hr Hl IH]; [done|].
  rewrite fmap_cons, sum_cells_cons.
  cbn [spec.column_sum foldr]. fold (spec.column_sum c l).
  revert Hr. unfold spec.score.
  destruct (at_col c r) as [|x|s]; simpl; intros Hr.
  - by rewrite IH.
  - by apply add_all_numbers.
  - by destruct Hr.
Qed.

Lemma group_sum_numbers df keys col k :
  spec.numeric col df →
  group_sum df keys col k = Ok (Num (spec.column_sum col (spec.group df keys k))).
Proof.
  intros Hnum. unfold group_sum. apply sum_cells_numbers.
  unfold spec.group. rewrite Forall_forall. intros r [_ Hr]%list_elem_of_filter.
  unfold spec.numeric in Hnum. rewrite Forall_forall in Hnum. by apply Hnum.
Qed.

Lemma mapM_ok {A B} (f : A → result B) (g : A → B) (l : list A) :
  (∀ x, f x = Ok (g x)) → mapM f l = Ok (g <$> l).
Proof.
  intros Hf. induction l as [|x l IH]; [done|].
  change (mapM f (x :: l)) with (y ← f x; k ← mapM f l; mret (y :: k)).
  by rewrite Hf, IH.
Qed.

Lemma groupby_sum_numbers df keys col :
  Forall (λ c, c ∈ columns df) keys → col ∈ columns df → col ∉ keys →
  spec.numeric col df →
  groupby_sum df keys col
  = Ok {| columns := keys ++ [col];
          rows := (λ k, spec.group_row keys col k
                          (Num (spec.column_sum col (spec.group df keys k))))
                    <$> group_keys df keys |}.
Proof.
  intros Hkeys Hcol Hnot Hnum. unfold groupby_sum.
  rewrite filter_none; cycle 1.
  { eapply Forall_impl; [exact Hkeys|]. intros c Hc. cbv beta. tauto. }
  rewrite bool_decide_true by done.
  erewrite mapM_ok; cycle 1.
  { intros k. rewrite group_sum_numbers by done. reflexivity. }
  cbn [mbind result_bind]. by rewrite bool_decide_false.
Qed.

Lemma elem_of_group_keys df keys k :
  k ∈ group_keys df keys ↔
  Forall (λ v, ¬ isna v) k ∧ ∃ r, r ∈ rows df ∧ key_of keys r = k.
Proof.
  unfold group_keys. rewrite elem_of_sort_by, elem_of_remove_dups.
  rewrite list_elem_of_filter, list_elem_of_fmap.
  assert (¬ existsb isna k ↔ Forall (λ v, ¬ isna v) k) as ->.
  { induction k as [|v k IH]; simpl.
    - split; [intros _; constructor|tauto].
    - rewrite Forall_cons, <- IH, orb_True. tauto. }
  split; intros [? (r & ? & ?)]; (split; [done|]); by exists r.
Qed.

Lemma group_keys_NoDup df keys : NoDup (group_keys df keys).
Proof. unfold group_keys. rewrite sort_by_Permutation. apply NoDup_remove_dups. Qed.

(** The groups are listed in ascending order of their keys. *)
Lemma group_keys_sorted df keys :
  StronglySorted (λ k1 k2, key_lt k1 k2) (group_keys df keys).
Proof.
  set (P := λ k : list cell, length k = length keys ∧ Forall (λ v, ¬ isna v) k).
  assert (Forall P (group_keys df keys)) as HP.
  { rewrite Forall_forall. intros k (Hk & r & _ & <-)%elem_of_group_keys.
    split; [|done]. unfold key_of. by rewrite length_fmap. }
  assert (∀ x y, P x → P y → x ≠ y → key_lt x y ∨ key_lt y x) as Htotal.
  { intros x y [Hx ?] [Hy ?] ?. apply key_lt_total; congruence. }
  apply (strictly_sorted key_lt P); [done|done|apply group_keys_NoDup|].
  unfold group_keys in *. rewrite sort_by_Permutation in HP.
  apply (sort_by_sorted key_lt P); [| |done].
  - intros x y _ _ Hxy Hyx. by eapply key_lt_irrefl, key_lt_trans.
  - intros x y z Hx Hy Hz Hyx Hzy Hzx.
    destruct (decide (x = y)) as [->|Hne]; [done|].
    destruct (Htotal x y) as [Hxy|?]; [done..| |done].
    apply Hzy. by eapply key_lt_trans.
Qed.

Lemma key_of_group_row keys col k v :
  NoDup keys → length k = length keys → key_of keys (spec.group_row keys col k v) = k.
Proof.
  unfold spec.group_row, key_of. generalize [(col, v)] as rest.
  intros rest Hnd. revert k. induction Hnd as [|c keys Hc Hnd IH]; intros [|a k] Hlen;
    try done.
  cbn [zip zip_with app]. rewrite list_to_map_cons, fmap_cons, at_col_insert.
  f_equal. etrans; [|apply (IH k); by injection Hlen].
  apply list_fmap_ext. intros i c' Hc'. apply at_col_insert_ne.
  intros ->. apply Hc. by eapply list_elem_of_lookup_2.
Qed.

Lemma at_col_group_row keys col k v :
  col ∉ keys → at_col col (spec.group_row keys col k v) = v.
Proof.
  intros Hcol. unfold spec.group_row, at_col.
  rewrite list_to_map_app, lookup_union_r;
    [by rewrite list_to_map_cons, lookup_insert_eq|].
  apply not_elem_of_list_to_map_1. intros Hin. apply Hcol.
  apply list_elem_of_fmap in Hin as ([c a] & -> & Hin). by eapply elem_of_zip_l.
Qed.

End grouped_sums.

(** *** Top performers *)

Section top_performers.


(** The call groups by the columns of the category, unless pandas reads
    the key list of the 'Student' branch as row labels. *)
Lemma get_top_performers_grouping df category keys n :
  spec.grouping category = Some keys →
  (category = "Student" → length (rows df) = 5%nat →
   Forall (λ c, c ∈ columns df) keys) →
  talentfinderpro.get_top_performers df category n
  = (sums ← groupby_sum df keys "Points";
     sorted ← sort_values sums "Points" false;
     Ok (Some (head sorted n))).
Proof.
  unfold spec.grouping, talentfinderpro.get_top_performers.
  case_bool_decide as Hstudent.
  { intros [= <-] Hlist. unfold groupby_list_sum.
    rewrite bool_decide_false; [done|].
    intros [Hlen Hnot]. apply Hnot, Hlist; [done|]. by rewrite <- Hlen. }
  case_bool_decide as Hcat; [|done]. intros [= <-] _.
  repeat (apply elem_of_cons in Hcat as [->|Hcat]; [reflexivity|]).
  by apply elem_of_nil in Hcat.
Qed.

Lemma grouping_columns category keys :
  spec.grouping category = Some keys → NoDup keys ∧ "Points" ∉ keys.
Proof.
  unfold spec.grouping.
  case_bool_decide as Hstudent.
  { intros [= <-]. split; apply (bool_decide_unpack _); by vm_compute. }
  case_bool_decide as Hcat; [|done]. intros [= <-].
  split; [apply NoDup_singleton|]. intros Heq%list_elem_of_singleton.
  subst category. revert Hcat. apply (bool_decide_unpack _). by vm_compute.
Qed.

(** The sums of the groups, one row each, before they are sorted. *)
Lemma grouped_points_numbers df keys :
  "Points" ∉ keys →
  Forall (λ r, is_number (at_col "Points" r))
    ((λ k, spec.group_row keys "Points" k
             (Num (spec.column_sum "Points" (spec.group df keys k))))
       <$> group_keys df keys).
Proof.
  intros Hnot. apply Forall_fmap, Forall_true. intros k. unfold compose.
  by rewrite at_col_group_row.
Qed.

Lemma grouped_keys df keys :
  NoDup keys →
  key_of keys <$>
    ((λ k, spec.group_row keys "Points" k
             (Num (spec.column_sum "Points" (spec.group df keys k))))
       <$> group_keys df keys)
  = group_keys df keys.
Proof.
  intros Hnd. rewrite <- list_fmap_compose.
  rewrite <- (list_fmap_id (group_keys df keys)) at 2.
  apply list_fmap_ext. intros i k Hk. unfold compose.
  apply key_of_group_row; [done|].
  apply list_elem_of_lookup_2, elem_of_group_keys in Hk as (_ & r & _ & <-).
  unfold id, key_of. by rewrite length_fmap.
Qed.


End top_performers.

Section top_performers_order.

Lemma top_performers_rows df category keys n :
  spec.grouping category = Some keys →
  spec.points_table df keys →
  talentfinderpro.get_top_performers df category n
  = Ok (Some
      {| columns := keys ++ ["Points"];
         rows := take n (sort_by (spec.descending "Points")
                   ((λ k, spec.group_row keys "Points" k
                            (Num (spec.column_sum "Points" (spec.group df keys k))))
                      <$> group_keys df keys)) |}).
Proof.
  intros Hcat (Hkeys & Hpoints & Hnum).
  destruct (grouping_columns _ _ Hcat) as [Hnd Hnot].
  rewrite (get_top_performers_grouping _ _ _ _ Hcat) by done.
  rewrite groupby_sum_numbers by done. cbn [mbind result_bind].
  rewrite sort_values_numbers; [done| |].
  - cbn [columns]. apply elem_of_app. right. by left.
  - cbn [rows]. apply Forall_fmap, Forall_true. intros k. unfold compose.
    by rewrite at_col_group_row.
Qed.


End top_performers_order.



(** *** Sums per participant *)

Section per_student.







End per_student.



(** * Further properties of the functions *)

(** ** [calculate_total_and_rank] *)

Section calculate_errors.
Context (u : st.session).

Lemma getitem_missing df c : c ∉ columns df → getitem df c = Raise (KeyError c).
Proof. intros Hc. unfold getitem. by rewrite bool_decide_false. Qed.

Lemma run_getitem_missing (l : st.ref) c σ df :
  st.objects σ !! l = Some df → c ∉ columns df →
  st.getitem l c u σ = (Raise (KeyError c), σ).
Proof.
  intros Hl Hc. unfold st.getitem.
  rewrite (run_bind u _ _ _ _ _ (run_load u _ _ _ Hl)).
  unfold st.lift. by rewrite getitem_missing.
Qed.

(** X1.  A table that lacks one of the score columns is refused: the call
    raises [KeyError] for the first of 'mark1', 'mark2', 'mark3' that is
    missing (the columns that are there holding numbers or blanks), and
    neither the table nor anything else is changed. *)
Theorem missing_score_column_raises (l : st.ref) (σ : st.state) (df : DataFrame)
    (c : string) (others : list string) :
  st.objects σ !! l = Some df →
  filter (λ c, c ∉ columns df) ["mark1"; "mark2"; "mark3"] = c :: others →
  Forall (λ c, c ∈ columns df → spec.numeric c df) ["mark1"; "mark2"; "mark3"] →
  talentfinder.calculate_total_and_rank l u σ = (Raise (KeyError c), σ).
Proof.
  intros Hl Hmissing Hnum.
  apply Forall_cons in Hnum as [Hn1 Hnum]. apply Forall_cons in Hnum as [Hn2 _].
  unfold talentfinder.calculate_total_and_rank.
  rewrite filter_cons in Hmissing.
  destruct (decide ("mark1" ∉ columns df)) as [H1|H1%dec_stable].
  { injection Hmissing as <- _.
    by rewrite (run_bind_raise u _ _ _ _ _ (run_getitem_missing _ _ _ _ Hl H1)). }
  rewrite (run_bind u _ _ _ _ _ (run_getitem u _ _ _ _ Hl H1)).
  rewrite filter_cons in Hmissing.
  destruct (decide ("mark2" ∉ columns df)) as [H2|H2%dec_stable].
  { injection Hmissing as <- _.
    by rewrite (run_bind_raise u _ _ _ _ _ (run_getitem_missing _ _ _ _ Hl H2)). }
  rewrite (run_bind u _ _ _ _ _ (run_getitem u _ _ _ _ Hl H2)).
  rewrite !fillna_score by (by apply Hn1 || by apply Hn2).
  erewrite run_bind; [|unfold st.lift; by rewrite add_numbers].
  rewrite filter_cons in Hmissing.
  destruct (decide ("mark3" ∉ columns df)) as [H3|H3]; [|done].
  injection Hmissing as <- _.
  by rewrite (run_bind_raise u _ _ _ _ _ (run_getitem_missing _ _ _ _ Hl H3)).
Qed.
End calculate_errors.

Lemma missing_score_column_raises_witness :
  talentfinder.calculate_total_and_rank 0%nat Examples.no_input
    {| st.objects := [Examples.without_mark2]; st.page := [] |}
  = (Raise (KeyError "mark2"),
     {| st.objects := [Examples.without_mark2]; st.page := [] |}).
Proof.
  apply (missing_score_column_raises Examples.no_input 0%nat
           {| st.objects := [Examples.without_mark2]; st.page := [] |}
           Examples.without_mark2 "mark2" []).
  - reflexivity.
  - vm_compute. reflexivity.
  - apply (bool_decide_unpack _). by vm_compute.
Defined.

Section rank_order.
Context (u : st.session).

Lemma ranked_rows_score df :
  Forall (λ r, spec.score "total marks" r = spec.total r ∧
               at_col "Rank" r = Num (spec.competition_rank (rows (spec.ranked df)) r))
    (rows (spec.ranked df)).
Proof.
  apply Forall_and. split; [|apply ranked_rows_rank].
  eapply Forall_impl; [apply ranked_rows_total|].
  intros r Hr. unfold spec.score. by rewrite Hr.
Qed.

Lemma competition_rank_bounds (l : list row) r :
  r ∈ l → 1 ≤ spec.competition_rank l r ≤ Z.of_nat (length l).
Proof.
  intros Hr. unfold spec.competition_rank.
  pose proof (length_filter_lt
                (λ r', spec.score "total marks" r < spec.score "total marks" r') l r Hr).
  lia.
Qed.

Lemma returned_object (l : st.ref) σ df :
  st.objects σ !! l = Some df →
  (<[l := spec.totalled df]> (st.objects σ) ++ [spec.ranked df]) !! length (st.objects σ)
  = Some (spec.ranked df).
Proof. intros _. by rewrite list_lookup_middle by by rewrite length_insert. Qed.

(** X2.  The ranks lie between 1 and the number of rows: for every marks
    table, each rank in the returned table is at least 1 and at most the
    number of its rows. *)
Theorem ranks_within_bounds (l : st.ref) (σ : st.state) (df : DataFrame) :
  st.objects σ !! l = Some df →
  spec.marks_table df →
  ∃ l' σ' out,
    talentfinder.calculate_total_and_rank l u σ = (Ok l', σ') ∧
    st.objects σ' !! l' = Some out ∧
    Forall (λ r, ∃ k, at_col "Rank" r = Num k ∧ 1 ≤ k ≤ Z.of_nat (length (rows out)))
      (rows out).
Proof.
  intros Hl Hdf. eexists _, _, (spec.ranked df).
  split; [by apply calculate_total_and_rank_run|].
  split; [by apply returned_object|].
  pose proof (ranked_rows_score df) as Hrows.
  rewrite Forall_forall in Hrows |- *. intros r Hr.
  destruct (Hrows r Hr) as [_ Hrank]. eexists. split; [exact Hrank|].
  by apply competition_rank_bounds.
Qed.

(** X3.  The returned table lists the participants from the best rank
    downwards: the ranks never decrease from one row to a later one, and
    the first row has rank 1. *)
Theorem returned_table_in_rank_order (l : st.ref) (σ : st.state) (df : DataFrame) :
  st.objects σ !! l = Some df →
  spec.marks_table df →
  ∃ l' σ' out,
    talentfinder.calculate_total_and_rank l u σ = (Ok l', σ') ∧
    st.objects σ' !! l' = Some out ∧
    StronglySorted (λ r1 r2, spec.score "Rank" r1 ≤ spec.score "Rank" r2) (rows out) ∧
    (∀ r, rows out !! 0%nat = Some r → at_col "Rank" r = Num 1).
Proof.
  intros Hl Hdf. eexists _, _, (spec.ranked df).
  split; [by apply calculate_total_and_rank_run|].
  split; [by apply returned_object|].
  pose proof (ranked_rows_score df) as Hrows.
  pose proof (ranked_rows_sorted df) as Hsorted.
  set (out := spec.ranked df) in *.
  split.
  - eapply (StronglySorted_weaken _ _ _ _ Hrows); [|exact Hsorted].
    intros r1 r2 [Ht1 Hr1] [Ht2 Hr2] Hle. cbv beta in Hle.
    unfold spec.score at 1 2. rewrite Hr1, Hr2.
    apply competition_rank_mono. by rewrite Ht1, Ht2.
  - intros r Hr. destruct (rows out) as [|r0 rest] eqn:Hout; [done|].
    injection Hr as ->.
    apply Forall_cons in Hrows as [[Ht Hrank] Hrest].
    apply StronglySorted_inv in Hsorted as [_ Hfirst].
    rewrite Hrank. f_equal. apply competition_rank_top.
    constructor; [lia|].
    rewrite Forall_forall in Hrest, Hfirst |- *. intros r' Hr'.
    destruct (Hrest r' Hr') as [Ht' _]. rewrite Ht, Ht'. by apply Hfirst.
Qed.
End rank_order.

Lemma ranks_within_bounds_witness :
  ∃ l' σ' out,
    talentfinder.calculate_total_and_rank 0%nat Examples.no_input Examples.start
    = (Ok l', σ') ∧
    st.objects σ' !! l' = Some out ∧
    Forall (λ r, ∃ k, at_col "Rank" r = Num k ∧ 1 ≤ k ≤ Z.of_nat (length (rows out)))
      (rows out).
Proof.
  apply (ranks_within_bounds Examples.no_input 0%nat Examples.start Examples.two_rows).
  - reflexivity.
  - apply (bool_decide_unpack _). by vm_compute.
Defined.

Lemma returned_table_in_rank_order_witness :
  ∃ l' σ' out,
    talentfinder.calculate_total_and_rank 0%nat Examples.no_input Examples.start
    = (Ok l', σ') ∧
    st.objects σ' !! l' = Some out ∧
    StronglySorted (λ r1 r2, spec.score "Rank" r1 ≤ spec.score "Rank" r2) (rows out) ∧
    (∀ r, rows out !! 0%nat = Some r → at_col "Rank" r = Num 1).
Proof.
  apply (returned_table_in_rank_order Examples.no_input 0%nat Examples.start
           Examples.two_rows).
  - reflexivity.
  - apply (bool_decide_unpack _). by vm_compute.
Defined.

Section repeated_call.
Context (u : st.session).

Lemma add_column_idemp c cs : spec.add_column c (spec.add_column c cs) = spec.add_column c cs.
Proof.
  unfold spec.add_column at 1. by rewrite bool_decide_true by apply elem_of_add_column.
Qed.

Lemma with_total_idemp r : spec.with_total (spec.with_total r) = spec.with_total r.
Proof.
  unfold spec.with_total at 1. rewrite total_with_total.
  unfold spec.with_total. by rewrite insert_insert_eq.
Qed.

Lemma totalled_idemp df : spec.totalled (spec.totalled df) = spec.totalled df.
Proof.
  unfold spec.totalled. cbn [columns rows].
  rewrite add_column_idemp. f_equal.
  rewrite <- list_fmap_compose. apply list_fmap_ext. intros i r _.
  apply with_total_idemp.
Qed.

Lemma ranked_totalled df : spec.ranked (spec.totalled df) = spec.ranked df.
Proof. unfold spec.ranked. by rewrite totalled_idemp. Qed.

Lemma totalled_marks_table df : spec.marks_table df → spec.marks_table (spec.totalled df).
Proof.
  unfold spec.marks_table. rewrite !Forall_forall. intros Hdf c Hc.
  destruct (Hdf c Hc) as [Hcol Hnum].
  assert ("total marks" ≠ c) as Hne.
  { intros <-. revert Hc. apply (bool_decide_unpack _). vm_compute. exact I. }
  split; [by apply elem_of_add_column_ne|].
  unfold spec.numeric in *. cbn [spec.totalled rows].
  apply Forall_fmap. eapply Forall_impl; [exact Hnum|].
  intros r Hr. unfold compose, spec.with_total. by rewrite at_col_insert_ne.
Qed.

(** X4.  The call can be repeated on the same table: a second call leaves
    the argument as the first call left it and returns a new table equal
    to the one returned first. *)
Theorem repeated_call_same_result (l : st.ref) (σ : st.state) (df : DataFrame) :
  st.objects σ !! l = Some df →
  spec.marks_table df →
  ∃ l1 σ1 l2 σ2 out,
    talentfinder.calculate_total_and_rank l u σ = (Ok l1, σ1) ∧
    talentfinder.calculate_total_and_rank l u σ1 = (Ok l2, σ2) ∧
    l1 ≠ l2 ∧
    st.objects σ2 !! l1 = Some out ∧
    st.objects σ2 !! l2 = Some out ∧
    st.objects σ2 !! l = st.objects σ1 !! l.
Proof.
  intros Hl Hdf. pose proof (lookup_lt_Some _ _ _ Hl) as Hlt.
  set (σ1 := {| st.objects := <[l := spec.totalled df]> (st.objects σ) ++ [spec.ranked df];
                st.page := st.page σ |}).
  assert (st.objects σ1 !! l = Some (spec.totalled df)) as Hl1.
  { cbn [σ1 st.objects]. by rewrite lookup_app_l, list_lookup_insert_eq by by rewrite ?length_insert. }
  assert (length (st.objects σ1) = S (length (st.objects σ))) as Hlen.
  { cbn [σ1 st.objects]. rewrite length_app, length_insert. cbn [length]. lia. }
  eexists (length (st.objects σ)), σ1, (length (st.objects σ1)), _, (spec.ranked df).
  split; [by apply calculate_total_and_rank_run|].
  split; [by apply calculate_total_and_rank_run, totalled_marks_table|].
  rewrite totalled_idemp, ranked_totalled. cbn [st.objects].
  split; [lia|].
  split.
  { rewrite lookup_app_l by (rewrite length_insert; lia).
    rewrite list_lookup_insert_ne by lia.
    cbn [σ1 st.objects]. by rewrite list_lookup_middle by by rewrite length_insert. }
  split; [by rewrite list_lookup_middle by by rewrite length_insert|].
  rewrite lookup_app_l by (rewrite length_insert; lia).
  rewrite list_lookup_insert_eq by lia. by rewrite Hl1.
Qed.
End repeated_call.

Lemma repeated_call_same_result_witness :
  ∃ l1 σ1 l2 σ2 out,
    talentfinder.calculate_total_and_rank 0%nat Examples.no_input Examples.start
    = (Ok l1, σ1) ∧
    talentfinder.calculate_total_and_rank 0%nat Examples.no_input σ1 = (Ok l2, σ2) ∧
    l1 ≠ l2 ∧
    st.objects σ2 !! l1 = Some out ∧
    st.objects σ2 !! l2 = Some out ∧
    st.objects σ2 !! 0%nat = st.objects σ1 !! 0%nat.
Proof.
  apply (repeated_call_same_result Examples.no_input 0%nat Examples.start
           Examples.two_rows).
  - reflexivity.
  - apply (bool_decide_unpack _). by vm_compute.
Defined.

(** ** [main]: the table shown in the editor *)

Section required_columns.
Context (u : st.session).

Lemma blank_columns_rows df (missing : list string) :
  rows (foldl (λ df col, setitem_scalar df col NaN) df missing)
  = (λ r : row, foldl (λ r c, <[c := NaN]> r) r missing) <$> rows df.
Proof.
  revert df. induction missing as [|c missing IH]; intros df; cbn [foldl].
  - by rewrite list_fmap_id.
  - rewrite IH. cbn [setitem_scalar rows]. by rewrite <- list_fmap_compose.
Qed.

Lemma blank_columns_columns df (missing : list string) c :
  c ∈ columns (foldl (λ df col, setitem_scalar df col NaN) df missing)
  ↔ c ∈ columns df ∨ c ∈ missing.
Proof.
  revert df. induction missing as [|c' missing IH]; intros df; cbn [foldl].
  - rewrite elem_of_nil. tauto.
  - rewrite IH. cbn [setitem_scalar columns]. fold (spec.add_column c' (columns df)).
    rewrite elem_of_cons. destruct (decide (c' = c)) as [->|Hne].
    + pose proof (elem_of_add_column c (columns df)). tauto.
    + rewrite elem_of_add_column_ne by done. intuition congruence.
Qed.

Lemma at_col_blank_columns (missing : list string) c (r : row) :
  at_col c (foldl (λ r c, <[c := NaN]> r) r missing)
  = if bool_decide (c ∈ missing) then NaN else at_col c r.
Proof.
  revert r. induction missing as [|c' missing IH]; intros r; cbn [foldl].
  - by rewrite bool_decide_false by apply not_elem_of_nil.
  - rewrite IH. destruct (decide (c' = c)) as [->|Hne].
    + rewrite at_col_insert, (bool_decide_true (c ∈ c :: missing)) by left.
      by destruct (bool_decide _).
    + rewrite at_col_insert_ne by done.
      rewrite (bool_decide_ext (c ∈ c' :: missing) (c ∈ missing)); [done|].
      rewrite elem_of_cons. intuition congruence.
Qed.

(** X5.  Before the table is shown in the editor, [main] gives it every
    required column it lacks: afterwards the six required columns are all
    there, the uploaded columns hold the cells they held, the added
    columns are blank in every row, and no row is added or lost. *)
Theorem required_columns_added (l : st.ref) (σ : st.state) (marks : DataFrame) :
  st.objects σ !! l = Some marks →
  ∃ shown,
    talentfinder.add_missing_columns l
      (filter (λ col, col ∉ columns marks) talentfinder.required_columns) u σ
    = (Ok (), {| st.objects := <[l := shown]> (st.objects σ); st.page := st.page σ |}) ∧
    Forall (λ c, c ∈ columns shown) talentfinder.required_columns ∧
    length (rows shown) = length (rows marks) ∧
    (∀ c, c ∈ columns marks → c ∈ columns shown ∧ getitem shown c = getitem marks c) ∧
    (∀ c, c ∈ talentfinder.required_columns → c ∉ columns marks →
       getitem shown c = Ok (replicate (length (rows marks)) NaN)).
Proof.
  intros Hl. eexists. split; [by apply add_missing_columns_run|].
  set (missing := filter _ talentfinder.required_columns).
  assert (∀ c, c ∈ missing ↔ ((c ∉ columns marks) ∧ c ∈ talentfinder.required_columns))
    as Hmissing
    by (intros c; apply (list_elem_of_filter (λ col, col ∉ columns marks))).
  split; [|split; [|split]].
  - rewrite Forall_forall. intros c Hc. apply blank_columns_columns.
    destruct (decide (c ∈ columns marks)); [by left|right]. by apply Hmissing.
  - by rewrite blank_columns_rows, length_fmap.
  - intros c Hc.
    assert (c ∈ columns (foldl (λ df col, setitem_scalar df col NaN) marks missing)) as Hc'
      by (apply blank_columns_columns; by left).
    split; [done|]. rewrite !getitem_ok by done. f_equal.
    rewrite blank_columns_rows, <- list_fmap_compose. apply list_fmap_ext.
    intros i r _. unfold compose. rewrite at_col_blank_columns.
    rewrite bool_decide_false; [done|]. rewrite Hmissing. tauto.
  - intros c Hreq Hc.
    rewrite getitem_ok by (apply blank_columns_columns; right; by apply Hmissing).
    f_equal. rewrite blank_columns_rows, <- list_fmap_compose.
    rewrite <- (length_fmap (λ _, ()) (rows marks)).
    induction (rows marks) as [|r rs IH]; [done|].
    cbn [fmap list_fmap length replicate]. f_equal; [|exact IH].
    unfold compose. rewrite at_col_blank_columns.
    by rewrite bool_decide_true by by apply Hmissing.
Qed.
End required_columns.

Lemma required_columns_added_witness :
  ∃ shown,
    talentfinder.add_missing_columns 0%nat
      (filter (λ col, col ∉ columns Examples.two_rows) talentfinder.required_columns)
      Examples.no_input Examples.start
    = (Ok (), {| st.objects := <[0%nat := shown]> (st.objects Examples.start);
                 st.page := st.page Examples.start |}) ∧
    Forall (λ c, c ∈ columns shown) talentfinder.required_columns ∧
    length (rows shown) = length (rows Examples.two_rows) ∧
    (∀ c, c ∈ columns Examples.two_rows →
       c ∈ columns shown ∧ getitem shown c = getitem Examples.two_rows c) ∧
    (∀ c, c ∈ talentfinder.required_columns → c ∉ columns Examples.two_rows →
       getitem shown c = Ok (replicate (length (rows Examples.two_rows)) NaN)).
Proof.
  apply (required_columns_added Examples.no_input 0%nat Examples.start Examples.two_rows).
  reflexivity.
Defined.

(** ** [merge_with_master_data] *)

Section merge_more.
Context (u : st.session).

Lemma joined_result_cell marks master (r' : row) c :
  "Chest No" ∈ columns master →
  Forall (λ c, c ∉ columns master) spec.score_columns →
  c ∈ spec.result_columns →
  r' ∈ spec.joined marks master →
  ∃ r, r ∈ rows marks ∧ at_col c r' = at_col c r.
Proof.
  intros Hkey Hdisj Hc (r & Hr & Hr')%elem_of_joined. exists r. split; [done|].
  assert (∀ lr, at_col c (merged_row master (spec.results_of marks) "Chest No" [] lr
                            (filter (λ kv, kv.1 ∈ spec.result_columns) r))
                = at_col c r) as Hcell.
  { intros lr. rewrite merged_row_right; [by apply at_col_restrict|done| |done].
    intros c' Hc' [->|Hs]%elem_of_cons; [done|].
    rewrite Forall_forall in Hdisj. by destruct (Hdisj c' Hs). }
  destruct Hr' as [(m & _ & _ & ->)|[_ ->]]; apply Hcell.
Qed.

(** The state that a successful call leaves: three new tables (the six
    result columns of the marks table, the join, and the sorted join), and
    the page as it was. *)
Lemma merge_with_master_data_state (marks_df master_df : st.ref) σ marks master :
  st.objects σ !! marks_df = Some marks →
  st.objects σ !! master_df = Some master →
  spec.mergeable marks master →
  ∃ merged,
    sort_values (spec.joined_table marks master) "total marks" false = Ok merged ∧
    talentfinder.merge_with_master_data marks_df master_df u σ
    = (Ok (Some (2 + length (st.objects σ))%nat),
       {| st.objects := st.objects σ
            ++ [spec.results_of marks; spec.joined_table marks master; merged];
          st.page := st.page σ |}).
Proof.
  intros Hmarks Hmaster (Hcols & Hkey & Hnodup & Hdisj & Hkinds & Hcmp).
  assert ("Chest No" ∈ columns marks) as Hkey'.
  { rewrite Forall_forall in Hcols. apply Hcols. by left. }
  assert (∀ c, c ∈ columns master → c ∈ spec.result_columns → c = "Chest No") as Hdisj'.
  { intros c Hc [->|Hc']%elem_of_cons; [done|].
    rewrite Forall_forall in Hdisj. by destruct (Hdisj c Hc'). }
  destruct (sort_values_comparable (spec.joined_table marks master) "total marks")
    as (out & Hout & _ & _).
  { apply elem_of_app. right. apply (bool_decide_unpack _). by vm_compute. }
  { eapply comparable_subseteq; [|exact Hcmp].
    intros v (r' & -> & Hr')%list_elem_of_fmap. cbn [spec.joined_table rows] in Hr'.
    destruct (joined_result_cell marks master r' "total marks" Hkey Hdisj) as (r & Hr & ->);
      [apply (bool_decide_unpack _); by vm_compute|done|].
    apply list_elem_of_fmap. by exists r. }
  exists out. split; [done|].
  unfold talentfinder.merge_with_master_data.
  rewrite (run_bind u _ _ _ _ _ (run_columns u _ _ _ Hmarks)).
  rewrite (run_bind u _ _ _ _ _ (run_columns u _ _ _ Hmaster)).
  rewrite !bool_decide_true by done. cbn [andb].
  erewrite run_bind; cycle 1.
  { unfold st.getitems. rewrite (run_bind u _ _ _ _ _ (run_load u _ _ _ Hmarks)).
    erewrite run_bind; [|unfold st.lift; by rewrite (getitems_ok marks) by exact Hcols].
    reflexivity. }
  change {| columns := _; rows := _ |} with (spec.results_of marks).
  erewrite run_bind; cycle 1.
  { apply run_load. cbn [st.objects]. by rewrite lookup_app_l by by eapply lookup_lt_Some. }
  erewrite run_bind; cycle 1.
  { apply run_load. cbn [st.objects]. by rewrite list_lookup_middle. }
  erewrite run_bind; cycle 1.
  { unfold st.lift. rewrite (merge_right_disjoint master (spec.results_of marks) "Chest No");
      [reflexivity|done|by left|done|done| |].
    - apply (bool_decide_unpack _). by vm_compute.
    - cbn [spec.results_of rows]. by rewrite restricted_column by by left. }
  fold (spec.joined marks master).
  change {| columns := _; rows := spec.joined marks master |}
    with (spec.joined_table marks master).
  erewrite run_bind; [|reflexivity].
  cbn [st.objects st.page].
  erewrite run_bind; cycle 1.
  { unfold st.sort_values. erewrite run_bind; cycle 1.
    { apply run_load. cbn [st.objects]. rewrite length_app. cbn [length].
      replace (length (st.objects σ) + 1)%nat with (S (length (st.objects σ))) by lia.
      rewrite <- (app_assoc _ [_] [_]). cbn [app].
      rewrite lookup_app_r by lia.
      replace (S (length (st.objects σ)) - length (st.objects σ))%nat with 1%nat by lia.
      reflexivity. }
    erewrite run_bind; [|unfold st.lift; by rewrite Hout].
    reflexivity. }
  unfold mret, st.M_ret. cbn [st.objects st.page]. f_equal.
  - do 2 f_equal. rewrite !length_app. cbn [length]. lia.
  - f_equal. by rewrite <- !app_assoc.
Qed.

(** X6.  A successful merge changes neither of its arguments nor any
    other table, and shows nothing: it adds three tables to the store, the
    last of which it returns.  The returned table has the columns of the
    roster followed by the five score columns. *)
Theorem merge_leaves_tables_alone (marks_df master_df : st.ref) (σ : st.state)
    (marks master : DataFrame) :
  st.objects σ !! marks_df = Some marks →
  st.objects σ !! master_df = Some master →
  spec.mergeable marks master →
  ∃ scores joined merged,
    talentfinder.merge_with_master_data marks_df master_df u σ
    = (Ok (Some (2 + length (st.objects σ))%nat),
       {| st.objects := st.objects σ ++ [scores; joined; merged];
          st.page := st.page σ |}) ∧
    columns merged
    = columns master ++ ["mark1"; "mark2"; "mark3"; "total marks"; "Rank"].
Proof.
  intros Hmarks Hmaster Hok.
  destruct (merge_with_master_data_state _ _ _ _ _ Hmarks Hmaster Hok)
    as (merged & Hsort & Hrun).
  exists (spec.results_of marks), (spec.joined_table marks master), merged.
  split; [exact Hrun|].
  revert Hsort. unfold sort_values.
  destruct (getitem _ _) as [k|e]; [|done]. cbn [mbind result_bind].
  destruct (comparable k); [|done]. by intros [= <-].
Qed.

(** X7.  When the totals of the marks table are numbers, as they are
    after [calculate_total_and_rank], the merged table is in descending
    order of 'total marks'. *)
Theorem merged_table_sorted_by_total (marks_df master_df : st.ref) (σ : st.state)
    (marks master : DataFrame) :
  st.objects σ !! marks_df = Some marks →
  st.objects σ !! master_df = Some master →
  spec.mergeable marks master →
  Forall (λ r, is_number (at_col "total marks" r)) (rows marks) →
  ∃ merged,
    spec.returned_table (talentfinder.merge_with_master_data marks_df master_df u σ)
    = Some merged ∧
    StronglySorted
      (λ r1 r2, spec.score "total marks" r2 ≤ spec.score "total marks" r1)
      (rows merged).
Proof.
  intros Hmarks Hmaster Hok Hnum.
  destruct (merge_with_master_data_state _ _ _ _ _ Hmarks Hmaster Hok)
    as (merged & Hsort & Hrun).
  exists merged. split.
  { rewrite Hrun. cbn [spec.returned_table st.objects].
    rewrite lookup_app_r by lia.
    by replace (2 + length (st.objects σ) - length (st.objects σ))%nat with 2%nat by lia. }
  destruct Hok as (Hcols & Hkey & Hnodup & Hdisj & Hkinds & Hcmp).
  assert (Forall (λ r, is_number (at_col "total marks" r)) (spec.joined marks master))
    as Hnum'.
  { rewrite Forall_forall. intros r' Hr'.
    destruct (joined_result_cell marks master r' "total marks" Hkey Hdisj) as (r & Hr & ->);
      [apply (bool_decide_unpack _); by vm_compute|done|].
    rewrite Forall_forall in Hnum. by apply Hnum. }
  rewrite sort_values_numbers in Hsort; [| |done].
  - injection Hsort as <-. cbn [rows spec.joined_table]. by apply descending_sorted.
  - apply elem_of_app. right. apply (bool_decide_unpack _). by vm_compute.
Qed.

Lemma at_most_one_match {A} (f : A → cell) (v : cell) (l : list A) :
  NoDup (f <$> l) → (length (filter (λ x, f x = v) l) ≤ 1)%nat.
Proof.
  induction l as [|x l IH]; [simpl; lia|].
  rewrite fmap_cons, NoDup_cons. intros [Hx Hl].
  rewrite filter_cons. case_decide as Hv; [|by apply IH].
  rewrite filter_none; [simpl; lia|].
  rewrite Forall_forall. intros y Hy Hfy. apply Hx.
  apply list_elem_of_fmap. exists y. split; [congruence|done].
Qed.

Lemma joined_length marks master :
  NoDup (at_col "Chest No" <$> rows master) →
  length (spec.joined marks master) = length (rows marks).
Proof.
  intros Hnd. unfold spec.joined. cbn [spec.results_of rows].
  induction (rows marks) as [|r l IH]; [done|].
  rewrite fmap_cons, bind_cons, length_app, IH. cbn [length]. f_equal.
  pose proof (at_most_one_match (at_col "Chest No")
                (at_col "Chest No" (filter (λ kv, kv.1 ∈ spec.result_columns) r))
                (rows master) Hnd) as Hone.
  destruct (filter _ (rows master)) as [|m [|m' ms]]; [done|done|].
  cbn [length] in Hone. lia.
Qed.

(** X8.  When no chest number stands twice in the roster, the merged
    table has exactly as many rows as the marks table: no participant is
    dropped and none is repeated. *)
Theorem merged_table_row_count (marks_df master_df : st.ref) (σ : st.state)
    (marks master : DataFrame) :
  st.objects σ !! marks_df = Some marks →
  st.objects σ !! master_df = Some master →
  spec.mergeable marks master →
  NoDup (at_col "Chest No" <$> rows master) →
  ∃ merged,
    spec.returned_table (talentfinder.merge_with_master_data marks_df master_df u σ)
    = Some merged ∧
    length (rows merged) = length (rows marks).
Proof.
  intros Hmarks Hmaster Hok Hnd.
  destruct (merge_with_master_data_state _ _ _ _ _ Hmarks Hmaster Hok)
    as (merged & Hsort & Hrun).
  exists merged. split.
  { rewrite Hrun. cbn [spec.returned_table st.objects].
    rewrite lookup_app_r by lia.
    by replace (2 + length (st.objects σ) - length (st.objects σ))%nat with 2%nat by lia. }
  destruct (sort_values_comparable (spec.joined_table marks master) "total marks")
    as (out & Hout & _ & Hperm).
  - apply elem_of_app. right. apply (bool_decide_unpack _). by vm_compute.
  - revert Hsort. unfold sort_values.
    destruct (getitem _ _) as [k|e] eqn:Hk; [|done]. cbn [mbind result_bind].
    rewrite getitem_ok in Hk; cycle 1.
    { apply elem_of_app. right. apply (bool_decide_unpack _). by vm_compute. }
    injection Hk as <-. by destruct (comparable _).
  - rewrite Hout in Hsort. injection Hsort as <-.
    rewrite Hperm. cbn [spec.joined_table rows]. by apply joined_length.
Qed.





End merge_more.

Lemma merge_leaves_tables_alone_witness :
  ∃ scores joined merged,
    talentfinder.merge_with_master_data 0%nat 1%nat Examples.no_input
      (Examples.merging Examples.roster)
    = (Ok (Some (2 + length (st.objects (Examples.merging Examples.roster)))%nat),
       {| st.objects := st.objects (Examples.merging Examples.roster)
            ++ [scores; joined; merged];
          st.page := st.page (Examples.merging Examples.roster) |}) ∧
    columns merged
    = columns Examples.roster ++ ["mark1"; "mark2"; "mark3"; "total marks"; "Rank"].
Proof.
  apply (merge_leaves_tables_alone Examples.no_input 0%nat 1%nat
           (Examples.merging Examples.roster) Examples.results Examples.roster).
  - reflexivity.
  - reflexivity.
  - apply (bool_decide_unpack _). by vm_compute.
Defined.

Lemma merged_table_sorted_by_total_witness :
  ∃ merged,
    spec.returned_table
      (talentfinder.merge_with_master_data 0%nat 1%nat Examples.no_input
         (Examples.merging Examples.roster))
    = Some merged ∧
    StronglySorted
      (λ r1 r2, spec.score "total marks" r2 ≤ spec.score "total marks" r1)
      (rows merged).
Proof.
  apply (merged_table_sorted_by_total Examples.no_input 0%nat 1%nat
           (Examples.merging Examples.roster) Examples.results Examples.roster).
  - reflexivity.
  - reflexivity.
  - apply (bool_decide_unpack _). by vm_compute.
  - apply (bool_decide_unpack _). by vm_compute.
Defined.

Lemma merged_table_row_count_witness :
  ∃ merged,
    spec.returned_table
      (talentfinder.merge_with_master_data 0%nat 1%nat Examples.no_input
         (Examples.merging Examples.roster))
    = Some merged ∧
    length (rows merged) = length (rows Examples.results).
Proof.
  apply (merged_table_row_count Examples.no_input 0%nat 1%nat
           (Examples.merging Examples.roster) Examples.results Examples.roster).
  - reflexivity.
  - reflexivity.
  - apply (bool_decide_unpack _). by vm_compute.
  - apply (bool_decide_unpack _). by vm_compute.
Defined.



(** ** [main]: the runs of the buttons *)

Section main_runs.
Context (u : st.session).

(** With a readable marks workbook a run of [main] reaches the buttons in
    the state [at_editor]. *)
Lemma main_after_editor σ marks :
  spec.marks_upload u = Some (Ok marks) →
  talentfinder.main u σ
  = st.try_except
      (calculate ← st.button "Calculate Result";
       (if calculate : bool then
          result_df ← talentfinder.calculate_total_and_rank (S (length (st.objects σ)));
          st.render (st.write "Results calculated! Updated data:");;
          result ← st.load result_df;
          st.render (st.dataframe result)
        else mret ());;
       download ← st.button "Download Result";
       if download : bool then
         talentfinder.download_result (spec.event_name u) (spec.master_upload u)
           (S (length (st.objects σ)))
       else mret ())
      (λ e,
         st.render (st.error ("An error occurred: " +:+ st.str e));;
         st.render (st.error "Please make sure your Excel files have the correct format"))
      u (spec.at_editor u σ marks).
Proof.
  unfold spec.marks_upload. intros Hmarks.
  unfold talentfinder.main.
  do 4 st_step. rewrite Hmarks. do 2 st_step.
  unfold st.try_except.
  erewrite run_bind; [|apply read_excel_run].
  set (σ1 := {| st.objects := _ ++ [marks] |}).
  assert (st.objects σ1 !! length (st.objects σ) = Some marks) as Hl1.
  { subst σ1. cbn [st.objects]. by rewrite list_lookup_middle. }
  erewrite run_bind; [|by apply run_columns].
  erewrite run_bind; [|by apply add_missing_columns_run].
  fold (spec.with_required_columns marks).
  st_step.
  erewrite run_bind; cycle 1.
  { apply data_editor_run. cbn [st.objects].
    apply list_lookup_insert_eq. by eapply lookup_lt_Some. }
  fold (spec.edited u marks). cbn [st.objects st.page].
  rewrite length_insert.
  assert (length (st.objects σ1) = S (length (st.objects σ))) as ->.
  { subst σ1. cbn [st.objects]. rewrite length_app. cbn [length]. lia. }
  match goal with
  | |- (let (_, _) := _ _ ?s in _) = (let (_, _) := _ _ ?s' in _) =>
      assert (s = s') as ->; [|done]
  end.
  unfold spec.at_editor. subst σ1. cbn [st.objects st.page]. f_equal.
  - rewrite insert_app_r_alt, Nat.sub_diag by done. by rewrite <- app_assoc.
  - by rewrite <- !app_assoc.
Qed.

Lemma at_editor_edited σ marks :
  st.objects (spec.at_editor u σ marks) !! S (length (st.objects σ))
  = Some (spec.edited u marks).
Proof.
  cbn [spec.at_editor st.objects]. rewrite lookup_app_r by lia.
  by replace (S (length (st.objects σ)) - length (st.objects σ))%nat with 1%nat by lia.
Qed.

(** The totals and ranks of the edited table, computed at the buttons. *)
Lemma calculate_at_editor σ marks :
  spec.marks_table (spec.edited u marks) →
  talentfinder.calculate_total_and_rank (S (length (st.objects σ))) u
    (spec.at_editor u σ marks)
  = (Ok (2 + length (st.objects σ))%nat,
     {| st.objects := st.objects σ
          ++ [spec.with_required_columns marks;
              spec.totalled (spec.edited u marks);
              spec.ranked (spec.edited u marks)];
        st.page := st.page (spec.at_editor u σ marks) |}).
Proof.
  intros Hedited.
  rewrite (calculate_total_and_rank_run u _ _ _ (at_editor_edited σ marks) Hedited).
  cbn [spec.at_editor st.objects st.page]. f_equal.
  - f_equal. rewrite length_app. cbn [length]. lia.
  - f_equal. rewrite insert_app_r_alt by lia.
    replace (S (length (st.objects σ)) - length (st.objects σ))%nat with 1%nat by lia.
    cbn [insert list_insert]. by rewrite <- app_assoc.
Qed.

Lemma button_pressed label σ :
  st.pressed u = Some label → st.button label u σ = (Ok true, σ).
Proof. intros H. unfold st.button. by rewrite bool_decide_true. Qed.

Lemma button_not_pressed label σ :
  st.pressed u ≠ Some label → st.button label u σ = (Ok false, σ).
Proof. intros H. unfold st.button. by rewrite bool_decide_false. Qed.

(** X10.  Calculate Result: when the edited table is a marks table, the run
    shows the ranked table under the line "Results calculated! Updated
    data:" and ends; it offers no download.  The edited table now holds
    its totals, and the ranked table is a further object. *)
Theorem calculate_button_shows_results (σ : st.state) (marks : DataFrame) :
  st.pressed u = Some "Calculate Result" →
  spec.marks_upload u = Some (Ok marks) →
  spec.marks_table (spec.edited u marks) →
  talentfinder.main u σ
  = (Ok (),
     {| st.objects := st.objects σ
          ++ [spec.with_required_columns marks;
              spec.totalled (spec.edited u marks);
              spec.ranked (spec.edited u marks)];
        st.page := st.page (spec.at_editor u σ marks)
          ++ [st.write "Results calculated! Updated data:";
              st.dataframe (spec.ranked (spec.edited u marks))] |}).
Proof.
  intros Hpressed Hmarks Hedited.
  rewrite (main_after_editor _ _ Hmarks). unfold st.try_except.
  rewrite (run_bind u _ _ _ _ _ (button_pressed _ _ Hpressed)).
  erewrite run_bind; cycle 1.
  { rewrite (run_bind u _ _ _ _ _ (calculate_at_editor σ marks Hedited)).
    st_step. erewrite run_bind; cycle 1.
    { apply run_load. cbn [st.objects]. rewrite lookup_app_r by lia.
      by replace (2 + length (st.objects σ) - length (st.objects σ))%nat with 2%nat by lia. }
    reflexivity. }
  rewrite (run_bind u _ _ _ _ _ (button_not_pressed "Download Result" _
             ltac:(rewrite Hpressed; discriminate))).
  cbn [mret st.M_ret st.render st.objects st.page]. by rewrite <- app_assoc.
Qed.

(** X11.  Download Result with an event name and no master workbook: when
    the edited table is a marks table, the run offers the ranked table for
    download, as the file named after the event. *)
Theorem download_offers_ranked_table (σ : st.state) (marks : DataFrame) :
  st.pressed u = Some "Download Result" →
  spec.event_name u ≠ "" →
  spec.marks_upload u = Some (Ok marks) →
  spec.master_upload u = None →
  spec.marks_table (spec.edited u marks) →
  talentfinder.main u σ
  = (Ok (),
     {| st.objects := st.objects σ
          ++ [spec.with_required_columns marks;
              spec.totalled (spec.edited u marks);
              spec.ranked (spec.edited u marks)];
        st.page := st.page (spec.at_editor u σ marks)
          ++ [st.download_button "Click to Download"
                (spec.ranked (spec.edited u marks))
                (spec.event_name u +:+ "_results.xlsx") spec.xlsx] |}).
Proof.
  intros Hpressed Hname Hmarks Hmaster Hedited.
  rewrite (main_after_editor _ _ Hmarks). unfold st.try_except.
  rewrite (run_bind u _ _ _ _ _ (button_not_pressed "Calculate Result" _
             ltac:(rewrite Hpressed; discriminate))).
  st_step. unfold mret at 1, st.M_ret at 1.
  rewrite (run_bind u _ _ _ _ _ (button_pressed _ _ Hpressed)).
  unfold talentfinder.download_result. rewrite bool_decide_false by done.
  rewrite (run_bind u _ _ _ _ _ (calculate_at_editor σ marks Hedited)).
  rewrite Hmaster. st_step. unfold mret at 1, st.M_ret at 1.
  erewrite run_bind; cycle 1.
  { apply run_load. cbn [st.objects]. rewrite lookup_app_r by lia.
    by replace (2 + length (st.objects σ) - length (st.objects σ))%nat with 2%nat by lia. }
  reflexivity.
Qed.

(** X12.  Download Result with a master workbook that has no 'Chest No'
    column: the run shows the preview of the master data and the error,
    and ends without offering a download.  (The marks table always has the
    column, which [main] adds when it is missing.) *)
Theorem download_refused_without_roster_key (σ : st.state) (marks master : DataFrame) :
  st.pressed u = Some "Download Result" →
  spec.event_name u ≠ "" →
  spec.marks_upload u = Some (Ok marks) →
  spec.master_upload u = Some (Ok master) →
  "Chest No" ∉ columns master →
  spec.marks_table (spec.edited u marks) →
  talentfinder.main u σ
  = (Ok (),
     {| st.objects := st.objects σ
          ++ [spec.with_required_columns marks;
              spec.totalled (spec.edited u marks);
              spec.ranked (spec.edited u marks);
              master];
        st.page := st.page (spec.at_editor u σ marks)
          ++ [st.write "Preview of Master Data:";
              st.dataframe (head master 5);
              st.error "Chest No column not found in one or both files"] |}).
Proof.
  intros Hpressed Hname Hmarks Hmaster Hkey Hedited.
  rewrite (main_after_editor _ _ Hmarks). unfold st.try_except.
  rewrite (run_bind u _ _ _ _ _ (button_not_pressed "Calculate Result" _
             ltac:(rewrite Hpressed; discriminate))).
  st_step. unfold mret at 1, st.M_ret at 1.
  rewrite (run_bind u _ _ _ _ _ (button_pressed _ _ Hpressed)).
  unfold talentfinder.download_result. rewrite bool_decide_false by done.
  rewrite (run_bind u _ _ _ _ _ (calculate_at_editor σ marks Hedited)).
  rewrite Hmaster.
  set (σ2 := {| st.objects := _ ++ [_; _; spec.ranked _] |}).
  set (σ3 := {| st.objects := st.objects σ2 ++ [master];
                st.page := st.page σ2 ++ [st.write "Preview of Master Data:";
                                          st.dataframe (head master 5)] |}).
  assert (st.objects σ3 !! (2 + length (st.objects σ))%nat
          = Some (spec.ranked (spec.edited u marks))) as Hresult.
  { cbn [σ3 σ2 st.objects]. rewrite <- app_assoc, lookup_app_r by lia.
    by replace (2 + length (st.objects σ) - length (st.objects σ))%nat with 2%nat by lia. }
  assert (st.objects σ3 !! (3 + length (st.objects σ))%nat = Some master) as Hroster.
  { cbn [σ3 σ2 st.objects]. rewrite <- app_assoc, lookup_app_r by lia.
    by replace (3 + length (st.objects σ) - length (st.objects σ))%nat with 3%nat by lia. }
  erewrite run_bind; cycle 1.
  { erewrite run_bind; [|apply read_excel_run].
    st_step.
    erewrite run_bind; [|by apply run_load, list_lookup_middle].
    st_step. rewrite <- app_assoc. cbn [app].
    replace (length (st.objects σ2)) with (3 + length (st.objects σ))%nat
      by (cbn [σ2 st.objects]; rewrite length_app; cbn [length]; lia).
    fold σ3.
    apply (merge_without_key u _ _ σ3 _ _ Hresult Hroster). by right. }
  cbn [mret st.M_ret σ3 σ2 st.objects st.page].
  by rewrite <- !app_assoc.
Qed.

(** X13.  Download Result with a roster that can be merged: the run shows
    the preview of the master data and offers for download the join of
    the roster with the ranked results, sorted by 'total marks', as the
    file named after the event. *)
Theorem download_offers_merged_table (σ : st.state) (marks master : DataFrame) :
  st.pressed u = Some "Download Result" →
  spec.event_name u ≠ "" →
  spec.marks_upload u = Some (Ok marks) →
  spec.master_upload u = Some (Ok master) →
  spec.marks_table (spec.edited u marks) →
  spec.mergeable (spec.ranked (spec.edited u marks)) master →
  ∃ merged,
    sort_values (spec.joined_table (spec.ranked (spec.edited u marks)) master)
      "total marks" false = Ok merged ∧
    talentfinder.main u σ
    = (Ok (),
       {| st.objects := st.objects σ
            ++ [spec.with_required_columns marks;
                spec.totalled (spec.edited u marks);
                spec.ranked (spec.edited u marks);
                master;
                spec.results_of (spec.ranked (spec.edited u marks));
                spec.joined_table (spec.ranked (spec.edited u marks)) master;
                merged];
          st.page := st.page (spec.at_editor u σ marks)
            ++ [st.write "Preview of Master Data:";
                st.dataframe (head master 5);
                st.download_button "Click to Download" merged
                  (spec.event_name u +:+ "_results.xlsx") spec.xlsx] |}).
Proof.
  intros Hpressed Hname Hmarks Hmaster Hedited Hok.
  set (σ2 := {| st.objects := st.objects σ
                  ++ [spec.with_required_columns marks;
                      spec.totalled (spec.edited u marks);
                      spec.ranked (spec.edited u marks)];
                st.page := st.page (spec.at_editor u σ marks) |}).
  set (σ3 := {| st.objects := st.objects σ2 ++ [master];
                st.page := st.page σ2 ++ [st.write "Preview of Master Data:";
                                          st.dataframe (head master 5)] |}).
  assert (st.objects σ3 !! (2 + length (st.objects σ))%nat
          = Some (spec.ranked (spec.edited u marks))) as Hresult.
  { cbn [σ3 σ2 st.objects]. rewrite <- app_assoc, lookup_app_r by lia.
    by replace (2 + length (st.objects σ) - length (st.objects σ))%nat with 2%nat by lia. }
  assert (st.objects σ3 !! (3 + length (st.objects σ))%nat = Some master) as Hroster.
  { cbn [σ3 σ2 st.objects]. rewrite <- app_assoc, lookup_app_r by lia.
    by replace (3 + length (st.objects σ) - length (st.objects σ))%nat with 3%nat by lia. }
  destruct (merge_with_master_data_state u _ _ σ3 _ _ Hresult Hroster Hok)
    as (merged & Hsort & Hmerge).
  exists merged. split; [exact Hsort|].
  rewrite (main_after_editor _ _ Hmarks). unfold st.try_except.
  rewrite (run_bind u _ _ _ _ _ (button_not_pressed "Calculate Result" _
             ltac:(rewrite Hpressed; discriminate))).
  st_step. unfold mret at 1, st.M_ret at 1.
  rewrite (run_bind u _ _ _ _ _ (button_pressed _ _ Hpressed)).
  unfold talentfinder.download_result. rewrite bool_decide_false by done.
  rewrite (run_bind u _ _ _ _ _ (calculate_at_editor σ marks Hedited)).
  rewrite Hmaster. fold σ2.
  erewrite run_bind; cycle 1.
  { erewrite run_bind; [|apply read_excel_run].
    st_step.
    erewrite run_bind; [|by apply run_load, list_lookup_middle].
    st_step. rewrite <- app_assoc. cbn [app].
    replace (length (st.objects σ2)) with (3 + length (st.objects σ))%nat
      by (cbn [σ2 st.objects]; rewrite length_app; cbn [length]; lia).
    fold σ3. exact Hmerge. }
  cbv iota. erewrite run_bind; cycle 1.
  { apply run_load. cbn [st.objects]. rewrite lookup_app_r by lia.
    by replace (2 + length (st.objects σ3) - length (st.objects σ3))%nat with 2%nat by lia. }
  unfold st.render. cbn [σ3 σ2 st.objects st.page].
  by rewrite <- !app_assoc.
Qed.

(** X14.  A marks workbook that cannot be read: the error of the reader is
    shown, followed by the hint about the format, and the run ends
    normally; no table object is made. *)
Theorem unreadable_marks_reported (σ : st.state) (e : exn) :
  spec.marks_upload u = Some (Raise e) →
  talentfinder.main u σ
  = (Ok (),
     {| st.objects := st.objects σ;
        st.page := st.page σ
          ++ [st.title "Event Results Calculator";
              st.subheader "Upload Marks Entry File";
              st.subheader "Upload Master Data";
              st.error ("An error occurred: " +:+ st.str e);
              st.error "Please make sure your Excel files have the correct format"] |}).
Proof.
  unfold spec.marks_upload. intros Hmarks. unfold talentfinder.main.
  do 4 st_step. rewrite Hmarks. do 2 st_step.
  unfold st.try_except.
  erewrite run_bind_raise; [|unfold st.read_excel; apply run_bind_raise; reflexivity].
  st_step. unfold st.render. cbn [st.objects st.page]. by rewrite <- !app_assoc.
Qed.

(** X15.  Without a marks workbook the run shows the title and the two
    headings with their input widgets and nothing else: no table is made,
    and no button is offered. *)
Theorem nothing_without_marks_workbook (σ : st.state) :
  spec.marks_upload u = None →
  talentfinder.main u σ
  = (Ok (),
     {| st.objects := st.objects σ;
        st.page := st.page σ
          ++ [st.title "Event Results Calculator";
              st.subheader "Upload Marks Entry File";
              st.subheader "Upload Master Data"] |}).
Proof.
  unfold spec.marks_upload. intros Hmarks. unfold talentfinder.main.
  do 4 st_step. rewrite Hmarks. do 2 st_step.
  unfold mret, st.M_ret. by rewrite <- !app_assoc.
Qed.

(** X16.  No exception leaves [main]: whatever the session and the state,
    the run ends normally. *)
Theorem main_never_raises (σ : st.state) :
  ∃ σ', talentfinder.main u σ = (Ok (), σ').
Proof.
  unfold talentfinder.main. do 6 st_step.
  destruct (st.uploads u !! "Upload Excel file with Chest Numbers") as [file|];
    [|by eexists].
  unfold st.try_except.
  match goal with |- ∃ _, (let (_, _) := ?run in _) = _ => destruct run as [[[]|e] σ'] end.
  - by eexists.
  - st_step. by eexists.
Qed.
End main_runs.

Lemma calculate_button_shows_results_witness :
  talentfinder.main Examples.calculate_pressed Examples.blank_page
  = (Ok (),
     {| st.objects := st.objects Examples.blank_page
          ++ [spec.with_required_columns Examples.two_rows;
              spec.totalled (spec.edited Examples.calculate_pressed Examples.two_rows);
              spec.ranked (spec.edited Examples.calculate_pressed Examples.two_rows)];
        st.page :=
          st.page (spec.at_editor Examples.calculate_pressed Examples.blank_page
                     Examples.two_rows)
          ++ [st.write "Results calculated! Updated data:";
              st.dataframe
                (spec.ranked (spec.edited Examples.calculate_pressed Examples.two_rows))] |}).
Proof.
  apply (calculate_button_shows_results Examples.calculate_pressed Examples.blank_page
           Examples.two_rows).
  - reflexivity.
  - reflexivity.
  - apply (bool_decide_unpack _). by vm_compute.
Defined.

Lemma download_offers_ranked_table_witness :
  talentfinder.main (Examples.download_pressed Examples.marks_only) Examples.blank_page
  = (Ok (),
     {| st.objects := st.objects Examples.blank_page
          ++ [spec.with_required_columns Examples.two_rows;
              spec.totalled
                (spec.edited (Examples.download_pressed Examples.marks_only)
                   Examples.two_rows);
              spec.ranked
                (spec.edited (Examples.download_pressed Examples.marks_only)
                   Examples.two_rows)];
        st.page :=
          st.page (spec.at_editor (Examples.download_pressed Examples.marks_only)
                     Examples.blank_page Examples.two_rows)
          ++ [st.download_button "Click to Download"
                (spec.ranked
                   (spec.edited (Examples.download_pressed Examples.marks_only)
                      Examples.two_rows))
                (spec.event_name (Examples.download_pressed Examples.marks_only)
                 +:+ "_results.xlsx")
                spec.xlsx] |}).
Proof.
  apply (download_offers_ranked_table (Examples.download_pressed Examples.marks_only)
           Examples.blank_page Examples.two_rows).
  - reflexivity.
  - apply (bool_decide_unpack _). by vm_compute.
  - reflexivity.
  - reflexivity.
  - apply (bool_decide_unpack _). by vm_compute.
Defined.

Lemma download_refused_without_roster_key_witness :
  talentfinder.main
    (Examples.download_pressed (Examples.marks_and (Ok Examples.names_only)))
    Examples.blank_page
  = (Ok (),
     {| st.objects := st.objects Examples.blank_page
          ++ [spec.with_required_columns Examples.two_rows;
              spec.totalled
                (spec.edited
                   (Examples.download_pressed (Examples.marks_and (Ok Examples.names_only)))
                   Examples.two_rows);
              spec.ranked
                (spec.edited
                   (Examples.download_pressed (Examples.marks_and (Ok Examples.names_only)))
                   Examples.two_rows);
              Examples.names_only];
        st.page :=
          st.page
            (spec.at_editor
               (Examples.download_pressed (Examples.marks_and (Ok Examples.names_only)))
               Examples.blank_page Examples.two_rows)
          ++ [st.write "Preview of Master Data:";
              st.dataframe (head Examples.names_only 5);
              st.error "Chest No column not found in one or both files"] |}).
Proof.
  apply (download_refused_without_roster_key
           (Examples.download_pressed (Examples.marks_and (Ok Examples.names_only)))
           Examples.blank_page Examples.two_rows Examples.names_only).
  - reflexivity.
  - apply (bool_decide_unpack _). by vm_compute.
  - reflexivity.
  - reflexivity.
  - apply (bool_decide_unpack _). by vm_compute.
  - apply (bool_decide_unpack _). by vm_compute.
Defined.

Lemma download_offers_merged_table_witness :
  ∃ merged σ',
    talentfinder.main
      (Examples.download_pressed (Examples.marks_and (Ok Examples.roster)))
      Examples.blank_page
    = (Ok (), σ') ∧
    st.objects σ' !! 6%nat = Some merged ∧
    last (st.page σ')
    = Some (st.download_button "Click to Download" merged "Finals_results.xlsx" spec.xlsx).
Proof.
  destruct (download_offers_merged_table
              (Examples.download_pressed (Examples.marks_and (Ok Examples.roster)))
              Examples.blank_page Examples.two_rows Examples.roster)
    as (merged & _ & Hrun).
  - reflexivity.
  - apply (bool_decide_unpack _). by vm_compute.
  - reflexivity.
  - reflexivity.
  - apply (bool_decide_unpack _). by vm_compute.
  - apply (bool_decide_unpack _). by vm_compute.
  - exists merged. eexists. split; [exact Hrun|]. split; reflexivity.
Defined.

Lemma unreadable_marks_reported_witness :
  talentfinder.main Examples.unreadable_marks Examples.blank_page
  = (Ok (),
     {| st.objects := st.objects Examples.blank_page;
        st.page := st.page Examples.blank_page
          ++ [st.title "Event Results Calculator";
              st.subheader "Upload Marks Entry File";
              st.subheader "Upload Master Data";
              st.error ("An error occurred: "
                        +:+ st.str (ValueError "Excel file format cannot be determined"));
              st.error "Please make sure your Excel files have the correct format"] |}).
Proof.
  apply (unreadable_marks_reported Examples.unreadable_marks Examples.blank_page
           (ValueError "Excel file format cannot be determined")).
  reflexivity.
Defined.

Lemma nothing_without_marks_workbook_witness :
  talentfinder.main Examples.no_input Examples.blank_page
  = (Ok (),
     {| st.objects := st.objects Examples.blank_page;
        st.page := st.page Examples.blank_page
          ++ [st.title "Event Results Calculator";
              st.subheader "Upload Marks Entry File";
              st.subheader "Upload Master Data"] |}).
Proof.
  apply (nothing_without_marks_workbook Examples.no_input Examples.blank_page).
  reflexivity.
Defined.

(** ** [get_top_performers] *)

Section top_performers_more.

Lemma get_top_performers_other df category n :
  spec.grouping category = None →
  talentfinderpro.get_top_performers df category n = Ok None.
Proof.
  unfold spec.grouping, talentfinderpro.get_top_performers.
  case_bool_decide as Hstudent; [done|].
  case_bool_decide as Hcat; [done|]. intros _.
  rewrite !bool_decide_false; [done|intros ->; apply Hcat..].
  - do 2 right; left.
  - right; left.
  - left.
Qed.

(** X17.  The function answers [None] for the categories it does not know
    and for no other: for 'Student', 'Church', 'Section' and 'Region' it
    returns a table or raises. *)
Theorem none_only_for_unknown_category (df : DataFrame) (category : string) (n : nat) :
  talentfinderpro.get_top_performers df category n = Ok None
  ↔ category ∉ ["Student"; "Church"; "Section"; "Region"].
Proof.
  split.
  - intros Hnone Hin. revert Hnone. unfold talentfinderpro.get_top_performers.
    repeat (apply elem_of_cons in Hin as [->|Hin]); [..|by apply elem_of_nil in Hin];
      repeat (rewrite bool_decide_false by done); rewrite bool_decide_true by done;
      first [destruct (groupby_list_sum df _ "Points") as [sums|e]
            |destruct (groupby_sum df _ "Points") as [sums|e]];
      [|done| |done| |done| |done]; cbn [mbind result_bind];
      by destruct (sort_values sums "Points" false).
  - intros Hnot. apply get_top_performers_other. unfold spec.grouping.
    rewrite bool_decide_false by (intros ->; apply Hnot; left).
    rewrite bool_decide_false; [done|].
    intros Hin. apply Hnot. by right.
Qed.

(** X18.  A table that lacks a grouping column of the category is refused:
    the call raises [KeyError] for the first such column.  The one
    exception is the 'Student' category on a table of exactly five rows,
    where pandas reads the list of five keys as row labels and raises
    nothing for them; it is set aside here. *)
Theorem missing_grouping_column_raises (df : DataFrame) (category : string)
    (keys : list string) (n : nat) (c : string) (others : list string) :
  spec.grouping category = Some keys →
  filter (λ c, c ∉ columns df) keys = c :: others →
  ¬ (category = "Student" ∧ length (rows df) = 5%nat) →
  talentfinderpro.get_top_performers df category n = Raise (KeyError c).
Proof.
  intros Hcat Hmissing Hlist.
  rewrite (get_top_performers_grouping _ _ _ _ Hcat)
    by (intros ? ?; by destruct Hlist).
  unfold groupby_sum. by rewrite Hmissing.
Qed.

(** X19.  A table that has the grouping columns and no 'Points' column is
    refused with [KeyError]. *)
Theorem missing_points_column_raises (df : DataFrame) (category : string)
    (keys : list string) (n : nat) :
  spec.grouping category = Some keys →
  Forall (λ c, c ∈ columns df) keys →
  "Points" ∉ columns df →
  talentfinderpro.get_top_performers df category n
  = Raise (KeyError "Column not found: Points").
Proof.
  intros Hcat Hkeys Hpoints. rewrite (get_top_performers_grouping _ _ _ _ Hcat) by done.
  unfold groupby_sum. rewrite filter_none; cycle 1.
  { eapply Forall_impl; [exact Hkeys|]. intros c Hc. cbv beta. tauto. }
  by rewrite bool_decide_false.
Qed.

(** X20.  The rows returned are the best ones: a group of the table that
    is not among the rows returned has a sum no greater than the sum of
    any row returned. *)
Theorem top_performers_are_the_best (df : DataFrame) (category : string)
    (keys : list string) (n : nat) :
  spec.grouping category = Some keys →
  spec.points_table df keys →
  ∃ out,
    talentfinderpro.get_top_performers df category n = Ok (Some out) ∧
    ∀ r r0, r ∈ rows out → r0 ∈ rows df →
      Forall (λ v, ¬ isna v) (key_of keys r0) →
      (∀ r', r' ∈ rows out → key_of keys r' ≠ key_of keys r0) →
      spec.column_sum "Points" (spec.group df keys (key_of keys r0))
      ≤ spec.score "Points" r.
Proof.
  intros Hcat Hdf. eexists. split; [by apply top_performers_rows|].
  destruct (grouping_columns _ _ Hcat) as [Hnd Hnot]. cbn [rows].
  set (mk := λ k, spec.group_row keys "Points" k
                    (Num (spec.column_sum "Points" (spec.group df keys k)))).
  set (sorted := sort_by (spec.descending "Points") (mk <$> group_keys df keys)).
  intros r r0 Hr Hr0 Hkey Hout.
  assert (StronglySorted (λ r1 r2, spec.score "Points" r2 ≤ spec.score "Points" r1)
            (take n sorted ++ drop n sorted)) as Hsorted.
  { rewrite take_drop. by apply descending_sorted, grouped_points_numbers. }
  assert (key_of keys (mk (key_of keys r0)) = key_of keys r0) as Hk0.
  { apply key_of_group_row; [done|]. unfold key_of. by rewrite !length_fmap. }
  assert (mk (key_of keys r0) ∈ take n sorted ++ drop n sorted) as Hin.
  { rewrite take_drop. apply elem_of_sort_by, list_elem_of_fmap.
    exists (key_of keys r0). split; [done|].
    apply elem_of_group_keys. split; [done|]. by exists r0. }
  apply elem_of_app in Hin as [Hin|Hin]; [by destruct (Hout _ Hin)|].
  pose proof (StronglySorted_app_1_elem_of _ _ _ _ _ Hsorted Hr Hin) as Hle.
  cbv beta in Hle. revert Hle. unfold spec.score at 1, mk.
  by rewrite at_col_group_row.
Qed.

(** X21.  The table returned has one row for each of the first [n]
    groups and no group twice: its length is the smaller of [n] and the
    number of groups. *)
Theorem top_performers_row_count (df : DataFrame) (category : string)
    (keys : list string) (n : nat) :
  spec.grouping category = Some keys →
  spec.points_table df keys →
  ∃ out,
    talentfinderpro.get_top_performers df category n = Ok (Some out) ∧
    length (rows out) = (n `min` length (group_keys df keys))%nat ∧
    NoDup (key_of keys <$> rows out).
Proof.
  intros Hcat Hdf. eexists. split; [by apply top_performers_rows|].
  destruct (grouping_columns _ _ Hcat) as [Hnd Hnot]. cbn [rows]. split.
  - by rewrite length_take, sort_by_length, length_fmap.
  - rewrite fmap_take. eapply sublist_NoDup; [|apply sublist_take].
    rewrite sort_by_Permutation, grouped_keys by done. apply group_keys_NoDup.
Qed.

Lemma column_sum_cons c (r : row) (l : list row) :
  spec.column_sum c (r :: l) = spec.score c r + spec.column_sum c l.
Proof. done. Qed.

Lemma column_sum_Permutation c (l1 l2 : list row) :
  l1 ≡ₚ l2 → spec.column_sum c l1 = spec.column_sum c l2.
Proof.
  induction 1 as [|r l1 l2 _ IH|r1 r2 l|l1 l2 l3 _ IH1 _ IH2].
  - done.
  - rewrite !column_sum_cons. lia.
  - rewrite !column_sum_cons. lia.
  - congruence.
Qed.

(** The rows with their key in a list of distinct keys: their sum is the
    sum of the sums of the groups. *)
Lemma column_sum_groups c keys (ks : list (list cell)) (l : list row) :
  NoDup ks →
  foldr (λ k s, spec.column_sum c (filter (λ r, key_of keys r = k) l) + s) 0 ks
  = spec.column_sum c (filter (λ r, key_of keys r ∈ ks) l).
Proof.
  induction 1 as [|k ks Hk Hnd IH].
  { cbn [foldr]. rewrite filter_none; [done|].
    apply Forall_true. intros r. apply not_elem_of_nil. }
  cbn [foldr]. rewrite IH. clear IH.
  induction l as [|r l IHl]; [done|].
  rewrite !filter_cons.
  destruct (decide (key_of keys r = k)) as [Heq|Hne].
  - rewrite (decide_True (P := key_of keys r ∈ k :: ks)) by (rewrite Heq; left).
    rewrite (decide_False (P := key_of keys r ∈ ks)) by (by rewrite Heq).
    rewrite !column_sum_cons. lia.
  - destruct (decide (key_of keys r ∈ ks)) as [Hin|Hnin].
    + rewrite (decide_True (P := key_of keys r ∈ k :: ks)) by by right.
      rewrite !column_sum_cons. lia.
    + rewrite (decide_False (P := key_of keys r ∈ k :: ks)); [done|].
      by intros [?|?]%elem_of_cons.
Qed.

Lemma column_sum_grouped df keys (ks : list (list cell)) :
  "Points" ∉ keys →
  spec.column_sum "Points"
    ((λ k, spec.group_row keys "Points" k
             (Num (spec.column_sum "Points" (spec.group df keys k)))) <$> ks)
  = foldr (λ k s, spec.column_sum "Points"
                    (filter (λ r, key_of keys r = k) (rows df)) + s) 0 ks.
Proof.
  intros Hnot. induction ks as [|k ks IH]; [done|].
  rewrite fmap_cons, column_sum_cons, IH. cbn [foldr].
  unfold spec.score. by rewrite at_col_group_row.
Qed.

(** X22.  When [n] is at least the number of groups, every group is
    returned and no point is lost: the points of the rows returned add up
    to the points of all rows of the table that belong to a group (the
    rows without a blank in a grouping column).  This is a statement on
    whole-number points below the bound of [spec.exact_sums], which
    float64 adds exactly in any grouping; decimal points, whose sums
    depend on the grouping in the last digits, are outside it. *)
Theorem top_performers_keep_the_points (df : DataFrame) (category : string)
    (keys : list string) (n : nat) :
  spec.grouping category = Some keys →
  spec.points_table df keys →
  spec.exact_sums "Points" (rows df) →
  (length (group_keys df keys) ≤ n)%nat →
  ∃ out,
    talentfinderpro.get_top_performers df category n = Ok (Some out) ∧
    key_of keys <$> rows out ≡ₚ group_keys df keys ∧
    spec.column_sum "Points" (rows out)
    = spec.column_sum "Points"
        (filter (λ r, Forall (λ v, ¬ isna v) (key_of keys r)) (rows df)).
Proof.
  intros Hcat Hdf _ Hn. eexists. split; [by apply top_performers_rows|].
  destruct (grouping_columns _ _ Hcat) as [Hnd Hnot]. cbn [rows].
  rewrite take_ge by by rewrite sort_by_length, length_fmap.
  split; [by rewrite sort_by_Permutation, grouped_keys|].
  rewrite (column_sum_Permutation _ _ _ (sort_by_Permutation _ _)).
  rewrite column_sum_grouped by done.
  rewrite column_sum_groups by apply group_keys_NoDup.
  f_equal. apply filter_ext_elem_of. intros r Hr.
  rewrite elem_of_group_keys. split; [by intros [? _]|].
  intros Hkey. split; [done|]. by exists r.
Qed.

Lemma group_keys_Permutation df df' keys :
  rows df' ≡ₚ rows df → group_keys df' keys = group_keys df keys.
Proof.
  intros Hperm.
  apply (StronglySorted_unique_strong (λ k1 k2 : list cell, key_lt k1 k2));
    [|apply group_keys_sorted..|].
  - intros k1 k2 _ _ H12 H21. destruct (key_lt_irrefl k1). by eapply key_lt_trans.
  - apply NoDup_Permutation; [apply group_keys_NoDup..|].
    intros k. rewrite !elem_of_group_keys.
    split; intros [Hk (r & Hr & Hkey)]; (split; [done|]); exists r;
      (split; [|done]); revert Hr; by rewrite Hperm.
Qed.

Lemma groupby_sum_of_numbers df keys col :
  spec.numeric col df →
  groupby_sum df keys col
  = match filter (λ c, c ∉ columns df) keys with
    | c :: _ => Raise (KeyError c)
    | [] =>
        if bool_decide (col ∈ columns df) then
          if bool_decide (col ∈ keys) then
            Raise (ValueError ("cannot insert " +:+ col +:+ ", already exists"))
          else
            Ok {| columns := keys ++ [col];
                  rows := (λ k, spec.group_row keys col k
                                  (Num (spec.column_sum col (spec.group df keys k))))
                            <$> group_keys df keys |}
        else Raise (KeyError ("Column not found: " +:+ col))
    end.
Proof.
  intros Hnum. unfold groupby_sum.
  destruct (filter _ keys); [|done].
  case_bool_decide; [|done].
  erewrite mapM_ok; [done|].
  intros k. by rewrite group_sum_numbers.
Qed.

(** X23.  The result does not depend on the order of the rows of the
    table: two tables with the same columns and the same rows in any
    order give the same answer.  This is a statement on whole-number
    points below the bound of [spec.exact_sums], which float64 adds
    exactly in any order.  The 'Student' category on a table of exactly
    five rows that lacks a grouping column is set aside: there pandas
    reads the list of five keys as labels of the rows, by position. *)
Theorem row_order_is_irrelevant (df df' : DataFrame) (category : string) (n : nat) :
  columns df' = columns df →
  rows df' ≡ₚ rows df →
  spec.numeric "Points" df →
  spec.exact_sums "Points" (rows df) →
  (category = "Student" → length (rows df) = 5%nat →
   Forall (λ c, c ∈ columns df) spec.student_columns) →
  talentfinderpro.get_top_performers df' category n
  = talentfinderpro.get_top_performers df category n.
Proof.
  intros Hcols Hperm Hnum _ Hlist.
  assert (spec.numeric "Points" df') as Hnum'.
  { unfold spec.numeric in *. by rewrite Hperm. }
  destruct (spec.grouping category) as [keys|] eqn:Hcat; cycle 1.
  { by rewrite !get_top_performers_other. }
  assert (category = "Student" → keys = spec.student_columns) as Hkeys.
  { intros ->. by injection Hcat as <-. }
  rewrite !(get_top_performers_grouping _ _ _ _ Hcat); cycle 1.
  { intros Hstudent Hlen. rewrite (Hkeys Hstudent). by apply Hlist. }
  { intros Hstudent Hlen. rewrite (Hkeys Hstudent), Hcols. apply Hlist; [done|].
    by rewrite <- Hperm. }
  rewrite !groupby_sum_of_numbers by done.
  rewrite Hcols, (group_keys_Permutation df df') by done.
  destruct (filter _ keys); [|done].
  case_bool_decide; [|done]. case_bool_decide; [done|].
  do 3 f_equal. apply list_fmap_ext. intros i k _. do 2 f_equal.
  apply column_sum_Permutation. unfold spec.group. by rewrite Hperm.
Qed.

End top_performers_more.

Lemma missing_grouping_column_raises_witness :
  talentfinderpro.get_top_performers Examples.two_rows "Student" 5
  = Raise (KeyError "ID No").
Proof.
  apply (missing_grouping_column_raises Examples.two_rows "Student" spec.student_columns 5
           "ID No" ["Student Name"; "Church"; "Section"; "Region"]).
  - reflexivity.
  - vm_compute. reflexivity.
  - apply (bool_decide_unpack _). by vm_compute.
Defined.

(** The exception.  Five keys on a table of five rows that lacks 'Region':
    the keys label the rows, the first row 'ID No', the second 'Student
    Name' and so on, and the call returns the points of each row under its
    label.  With four of the rows the same call raises [KeyError]. *)
Example five_keys_on_five_rows :
  (∃ out,
     talentfinderpro.get_top_performers Examples.five_without_region "Student" 5
     = Ok (Some out) ∧
     columns out = ["index"; "Points"] ∧
     values out = [[Str "Region"; Num 50]; [Str "Section"; Num 40]; [Str "Church"; Num 30];
                   [Str "Student Name"; Num 20]; [Str "ID No"; Num 10]]) ∧
  talentfinderpro.get_top_performers
    {| columns := columns Examples.five_without_region;
       rows := take 4 (rows Examples.five_without_region) |} "Student" 5
  = Raise (KeyError "Region").
Proof.
  split; [|vm_compute; reflexivity].
  exists {| columns := ["index"; "Points"];
            rows := [{[ "index" := Str "Region"; "Points" := Num 50 ]};
                     {[ "index" := Str "Section"; "Points" := Num 40 ]};
                     {[ "index" := Str "Church"; "Points" := Num 30 ]};
                     {[ "index" := Str "Student Name"; "Points" := Num 20 ]};
                     {[ "index" := Str "ID No"; "Points" := Num 10 ]}] |}.
  repeat split; vm_compute; reflexivity.
Qed.

Lemma missing_points_column_raises_witness :
  talentfinderpro.get_top_performers Examples.no_points "Church" 5
  = Raise (KeyError "Column not found: Points").
Proof.
  apply (missing_points_column_raises Examples.no_points "Church" ["Church"] 5).
  - reflexivity.
  - apply (bool_decide_unpack _). by vm_compute.
  - apply (bool_decide_unpack _). by vm_compute.
Defined.

Lemma top_performers_are_the_best_witness :
  ∃ out,
    talentfinderpro.get_top_performers Examples.tied_churches "Church" 1 = Ok (Some out) ∧
    ∀ r r0, r ∈ rows out → r0 ∈ rows Examples.tied_churches →
      Forall (λ v, ¬ isna v) (key_of ["Church"] r0) →
      (∀ r', r' ∈ rows out → key_of ["Church"] r' ≠ key_of ["Church"] r0) →
      spec.column_sum "Points"
        (spec.group Examples.tied_churches ["Church"] (key_of ["Church"] r0))
      ≤ spec.score "Points" r.
Proof.
  apply (top_performers_are_the_best Examples.tied_churches "Church" ["Church"] 1).
  - reflexivity.
  - apply (bool_decide_unpack _). by vm_compute.
Defined.

Lemma top_performers_row_count_witness :
  ∃ out,
    talentfinderpro.get_top_performers Examples.tied_churches "Church" 5 = Ok (Some out) ∧
    length (rows out) = (5 `min` length (group_keys Examples.tied_churches ["Church"]))%nat ∧
    NoDup (key_of ["Church"] <$> rows out).
Proof.
  apply (top_performers_row_count Examples.tied_churches "Church" ["Church"] 5).
  - reflexivity.
  - apply (bool_decide_unpack _). by vm_compute.
Defined.

Lemma top_performers_keep_the_points_witness :
  ∃ out,
    talentfinderpro.get_top_performers Examples.tied_churches "Church" 5 = Ok (Some out) ∧
    key_of ["Church"] <$> rows out ≡ₚ group_keys Examples.tied_churches ["Church"] ∧
    spec.column_sum "Points" (rows out)
    = spec.column_sum "Points"
        (filter (λ r, Forall (λ v, ¬ isna v) (key_of ["Church"] r))
           (rows Examples.tied_churches)).
Proof.
  apply (top_performers_keep_the_points Examples.tied_churches "Church" ["Church"] 5).
  - reflexivity.
  - apply (bool_decide_unpack _). by vm_compute.
  - apply (bool_decide_unpack _). by vm_compute.
  - apply (bool_decide_unpack _). by vm_compute.
Defined.

Lemma row_order_is_irrelevant_witness :
  talentfinderpro.get_top_performers Examples.tied_churches_reversed "Church" 5
  = talentfinderpro.get_top_performers Examples.tied_churches "Church" 5.
Proof.
  apply (row_order_is_irrelevant Examples.tied_churches Examples.tied_churches_reversed
           "Church" 5).
  - reflexivity.
  - apply reverse_Permutation.
  - apply (bool_decide_unpack _). by vm_compute.
  - apply (bool_decide_unpack _). by vm_compute.
  - discriminate.
Defined.
